(** * Meta-Learning AI System: strategy selection, guarded execution,
      weight learning and the retrieval cascade

    A shallow embedding of

    - [utils/input_analyzer.py]                (module [Analyzer]),
    - [learners/rule_engine.py]                (module [RuleEngine]),
    - [meta_controller/strategy_selector.py]   (module [Selector] for the
      scoring, feedback and statistics methods, and section [Engines] for
      [execute_strategy]),
    - [learners/retrieval_engine.py], [learners/ml_engine.py] and
      [learners/transformer_engine.py]         (section [Engines]).

    Conventions of the embedding.

    - Python [str] values are modelled by [string]; [lower], [strip],
      [title] and the regular expressions act on ASCII text.
    - Python [float] values (weights, scores, confidences) are modelled
      by exact rationals ([Q]); the arithmetic of the weight update keeps
      its results in lowest terms.  Rounding is not part of the model.
    - A division whose divisor is zero raises [ZeroDivisionError] in
      Python; [py_truediv] returns [None] there.
    - The dictionaries keyed by strategy name all have the four keys of
      [self.strategies]; they are total maps over [StrategyName].
    - External collaborators (the fitted TF-IDF index, the HTTP
      endpoints, the classifier, the generative model) are fields of
      class [Services]; each of them may raise. *)

From Stdlib Require Import QArith String Ascii List ZArith Lia Lqa Bool.
From Stdlib Require Import Qpower.
From stdpp Require Import gmap strings.
Import ListNotations.

Open Scope string_scope.

(** ** Text helpers (the [str] methods and regular expressions used) *)

Module Text.

Definition is_upper (c : ascii) : bool :=
  let n := nat_of_ascii c in (65 <=? n)%nat && (n <=? 90)%nat.

Definition is_lower (c : ascii) : bool :=
  let n := nat_of_ascii c in (97 <=? n)%nat && (n <=? 122)%nat.

Definition is_digit (c : ascii) : bool :=
  let n := nat_of_ascii c in (48 <=? n)%nat && (n <=? 57)%nat.

(** [str.isspace] on ASCII: tab, newline, vertical tab, form feed,
    carriage return, the four separators 28..31 and the blank. *)
Definition is_space (c : ascii) : bool :=
  let n := nat_of_ascii c in
  ((9 <=? n)%nat && (n <=? 13)%nat) || ((28 <=? n)%nat && (n <=? 32)%nat).

Definition lower_char (c : ascii) : ascii :=
  if is_upper c then ascii_of_nat (nat_of_ascii c + 32) else c.

Definition upper_char (c : ascii) : ascii :=
  if is_lower c then ascii_of_nat (nat_of_ascii c - 32) else c.

(** [s.lower()] *)
Fixpoint lower (s : string) : string :=
  match s with
  | EmptyString => EmptyString
  | String c s' => String (lower_char c) (lower s')
  end.

Fixpoint lstrip (s : string) : string :=
  match s with
  | EmptyString => EmptyString
  | String c s' => if is_space c then lstrip s' else s
  end.

Definition rev_string (s : string) : string :=
  string_of_list_ascii (rev (list_ascii_of_string s)).

(** [s.strip()] *)
Definition strip (s : string) : string :=
  rev_string (lstrip (rev_string (lstrip s))).

(** [sub in s] *)
Fixpoint contains (sub s : string) : bool :=
  String.prefix sub s ||
  match s with
  | EmptyString => false
  | String _ s' => contains sub s'
  end.

(** [any(k in s for k in keys)] *)
Definition any_in (keys : list string) (s : string) : bool :=
  existsb (fun k => contains k s) keys.

Fixpoint drop (n : nat) (s : string) : string :=
  match n, s with
  | O, _ => s
  | S _, EmptyString => EmptyString
  | S n', String _ s' => drop n' s'
  end.

(** The part of [s] before its first newline: what [.*] can run over. *)
Fixpoint until_newline (s : string) : string :=
  match s with
  | EmptyString => EmptyString
  | String c s' =>
      if Ascii.eqb c "010"%char then EmptyString
      else String c (until_newline s')
  end.

(** [re.search(a + ".*" + b, s)] for literal [a] and [b]: some
    occurrence of [a] is followed, on the same line, by one of [b]. *)
Fixpoint search_dotstar (a b s : string) : bool :=
  (String.prefix a s
   && contains b (until_newline (drop (String.length a) s))) ||
  match s with
  | EmptyString => false
  | String _ s' => search_dotstar a b s'
  end.

(** [re.search(r'\d', s)] *)
Fixpoint has_digit (s : string) : bool :=
  match s with
  | EmptyString => false
  | String c s' => is_digit c || has_digit s'
  end.

(** [s.startswith(p)] *)
Definition startswith (p s : string) : bool := String.prefix p s.

(** [s.replace(old, new)] for a non-empty [old]: leftmost occurrences,
    not overlapping.  [fuel] bounds the scan by the length of [s]. *)
Fixpoint replace_go (fuel : nat) (old new s : string) : string :=
  match fuel with
  | O => s
  | S fuel' =>
      match s with
      | EmptyString => EmptyString
      | String c s' =>
          if String.prefix old s
          then new ++ replace_go fuel' old new (drop (String.length old) s)
          else String c (replace_go fuel' old new s')
      end
  end.

Definition replace (old new s : string) : string :=
  replace_go (String.length s) old new s.

(** [s.title()]: a letter that follows a letter is lowered, any other
    letter is raised. *)
Fixpoint title_go (after_letter : bool) (s : string) : string :=
  match s with
  | EmptyString => EmptyString
  | String c s' =>
      let cased := is_upper c || is_lower c in
      String (if after_letter then lower_char c else upper_char c)
             (title_go cased s')
  end.

Definition title (s : string) : string := title_go false s.

(** [not answer or not answer.strip()] *)
Definition is_blank (s : string) : bool :=
  match strip s with
  | EmptyString => true
  | _ => false
  end.

(** Truthiness of a string: the empty string is falsy. *)
Definition nonempty (s : string) : bool :=
  match s with
  | EmptyString => false
  | _ => true
  end.

(** *** Vocabulary of the statements about text *)

(** [l] without its longest prefix of characters satisfying [p]. *)
Fixpoint drop_while (p : ascii -> bool) (l : list ascii) : list ascii :=
  match l with
  | [] => []
  | c :: l' => if p c then drop_while p l' else l
  end.

(** [query.lower().strip()], the normal form used as cache key and as the
    ['query'] feature. *)
Definition normalize (s : string) : string := strip (lower s).

End Text.

(** ** Numbers *)

Definition number := Q.

Definition py_mul (a b : number) : number := Qred (a * b).

Definition py_add (a b : number) : number := Qred (a + b).

(** [a / b]; [None] stands for [ZeroDivisionError]. *)
Definition py_truediv (a b : number) : option number :=
  if Qeq_bool b 0 then None else Some (Qred (a / b)).

Definition Qltb (a b : Q) : bool := negb (Qle_bool b a).

(** ** Strategy names and feature records *)

Inductive StrategyName : Set :=
  | RuleBased
  | Retrieval
  | ClassicalML
  | Transformer.

Definition strategy_label (s : StrategyName) : string :=
  match s with
  | RuleBased => "Rule-Based"
  | Retrieval => "Retrieval"
  | ClassicalML => "Classical ML"
  | Transformer => "Transformer"
  end.

(** The keys of [self.strategies], in insertion order. *)
Definition strategy_keys : list StrategyName :=
  [RuleBased; Retrieval; ClassicalML; Transformer].

Definition strategy_eqb (a b : StrategyName) : bool :=
  match a, b with
  | RuleBased, RuleBased
  | Retrieval, Retrieval
  | ClassicalML, ClassicalML
  | Transformer, Transformer => true
  | _, _ => false
  end.

(** The feature dictionary.  A key may be absent ([None]); the code
    reads every key through [dict.get]. *)
Record Features : Type := {
  f_query : option string;
  f_length : option Z;
  f_has_number : option bool;
  f_intent : option string;
  f_complexity : option string;
  f_is_rule_violation : option bool
}.

(** [features.get(k)] used as a condition: an absent key is falsy. *)
Definition truthy (o : option bool) : bool :=
  match o with
  | Some b => b
  | None => false
  end.

(** [features.get(k, d)] *)
Definition get_or {A : Type} (o : option A) (d : A) : A :=
  match o with
  | Some a => a
  | None => d
  end.

(** ** [utils/input_analyzer.py] *)

Module Analyzer.

Definition explanation_keywords : list string :=
  ["why"; "how"; "explain"; "describe"; "elaborate"].

Definition calculation_keywords : list string :=
  ["calculate"; "compute"; "solve"; "find"; "avg"; "average"; "mean"; "sum"].

Definition rule_keywords : list string :=
  ["predict"; "hack"; "cheat"; "bypass"; "illegal"].

Definition fact_keywords : list string :=
  ["who is"; "when"; "where"; "how many"; "how much"; "limit"; "minimum";
   "maximum"; "current"; "official"; "requirement"; "eligibility"; "mla";
   "mp"; "constituency"].

Definition _detect_intent (q : string) : string :=
  if Text.any_in rule_keywords q then "rule_violation"
  else if Text.any_in calculation_keywords q then "calculation"
  else if Text.any_in fact_keywords q || Text.startswith "what" q
       then "factual"
  else if Text.any_in explanation_keywords q then "explanation"
  else "general".

Definition analyze (query : string) : Features :=
  let q := Text.strip (Text.lower query) in
  {| f_query := Some q;
     f_length := Some (Z.of_nat (String.length q));
     f_has_number := Some (Text.has_digit q);
     f_intent := Some (_detect_intent q);
     f_complexity :=
       Some (if (80 <? String.length q)%nat || Text.contains "explain" q
             then "high" else "low");
     f_is_rule_violation :=
       Some (Text.contains "hack" q || Text.contains "cheat" q
             || Text.search_dotstar "predict" "mark" q) |}.

End Analyzer.

(** ** [meta_controller/strategy_selector.py]: scoring, feedback, statistics *)

Module Selector.

Record Counter : Set := { success : Z; total : Z }.

(** The meta-learning state of a [StrategySelector]. *)
Record t : Type := {
  strategy_weights : StrategyName -> number;
  strategy_success : StrategyName -> Counter
}.

(** [__init__] *)
Definition init : t :=
  {| strategy_weights := fun _ => 1.0%Q;
     strategy_success := fun _ => {| success := 0; total := 0 |} |}.

Definition confidence_threshold : Q := 0.35%Q.

(** [d[k] = v] on a total map *)
Definition set_item {A : Type} (d : StrategyName -> A) (k : StrategyName)
    (v : A) : StrategyName -> A :=
  fun k' => if strategy_eqb k k' then v else d k'.

(** One row of [CAPABILITY_MATRIX]. *)
Definition row (rb r ml tr : Q) : StrategyName -> Q :=
  fun s =>
    match s with
    | RuleBased => rb
    | Retrieval => r
    | ClassicalML => ml
    | Transformer => tr
    end.

(** [CAPABILITY_MATRIX.get(intent)] *)
Definition CAPABILITY_MATRIX (intent : string) : option (StrategyName -> Q) :=
  if String.eqb intent "rule_violation" then Some (row 10.0 0.0 0.0 0.0)
  else if String.eqb intent "calculation" then Some (row 1.0 0.5 8.0 2.0)
  else if String.eqb intent "factual" then Some (row 2.0 8.0 2.0 3.0)
  else if String.eqb intent "explanation" then Some (row 0.5 4.0 1.0 7.0)
  else if String.eqb intent "reason" then Some (row 0.0 3.0 1.0 7.0)
  else if String.eqb intent "general" then Some (row 1.0 2.0 3.0 6.0)
  else None.

Definition general_row : StrategyName -> Q := row 1.0 2.0 3.0 6.0.

Definition factual_indicators : list string :=
  ["prime minister"; "chief minister"; "president"; "governor"; "limit";
   "minimum"; "maximum"].

(** [intent not in ['explanation', 'reason', 'general']] *)
Definition qualitative (intent : string) : bool :=
  String.eqb intent "explanation" || String.eqb intent "reason"
  || String.eqb intent "general".

(** The base score of one strategy after the Transformer guard. *)
Definition base_score (intent : string) (strategy_name : StrategyName) : Q :=
  let intent_capabilities := get_or (CAPABILITY_MATRIX intent) general_row in
  if strategy_eqb strategy_name Transformer && negb (qualitative intent)
  then 0.1%Q
  else intent_capabilities strategy_name.

Definition context_bonus (features : Features) (complexity : string)
    (strategy_name : StrategyName) : Q :=
  let bonus :=
    if String.eqb complexity "high" && strategy_eqb strategy_name Transformer
    then 3.0%Q
    else if String.eqb complexity "low"
            && (strategy_eqb strategy_name RuleBased
                || strategy_eqb strategy_name ClassicalML
                || strategy_eqb strategy_name Retrieval)
    then 2.0%Q
    else 0.0%Q in
  if truthy (f_has_number features) && strategy_eqb strategy_name ClassicalML
  then (bonus + 2.0)%Q
  else bonus.

(** The body of the scoring loop: [scores[strategy_name]]. *)
Definition final_utility (self : t) (features : Features)
    (strategy_name : StrategyName) : Q :=
  let intent := get_or (f_intent features) "general" in
  let complexity := get_or (f_complexity features) "low" in
  let learned_weight := (strategy_weights self strategy_name * 4.0)%Q in
  (base_score intent strategy_name * learned_weight
   + context_bonus features complexity strategy_name)%Q.

(** [max(keys, key=score)]: the first key whose score is maximal. *)
Fixpoint max_from (score : StrategyName -> Q) (best : StrategyName)
    (rest : list StrategyName) : StrategyName :=
  match rest with
  | [] => best
  | k :: rest' =>
      max_from score (if Qltb (score best) (score k) then k else best) rest'
  end.

Definition max_by (score : StrategyName -> Q) : StrategyName :=
  max_from score RuleBased [Retrieval; ClassicalML; Transformer].

Definition select_strategy (self : t) (features : Features) : StrategyName :=
  if truthy (f_is_rule_violation features) then RuleBased
  else
    let intent := get_or (f_intent features) "general" in
    let query_text := Text.lower (get_or (f_query features) "") in
    if String.eqb intent "factual" || Text.any_in factual_indicators query_text
    then Retrieval
    else max_by (final_utility self features).

(** [_get_success_rate] *)
Definition _get_success_rate (self : t) (strategy : StrategyName)
    : option number :=
  let stats := strategy_success self strategy in
  if (total stats =? 0)%Z then Some 0.5%Q
  else py_truediv (inject_Z (success stats)) (inject_Z (total stats)).

(** [sum(self.strategy_weights.values())] *)
Definition sum_weights (w : StrategyName -> number) : number :=
  fold_left py_add (map w strategy_keys) 0%Q.

(** The multiplicative step of [update_from_feedback]: the weights
    before they are normalised. *)
Definition reinforce (strategy : StrategyName) (ok : bool) (self : t)
    : StrategyName -> number :=
  let w := strategy_weights self in
  set_item w strategy
    (if ok then py_mul (w strategy) 1.1%Q else py_mul (w strategy) 0.9%Q).

(** [update_from_feedback]; [None] when the normalisation divides by
    zero. *)
Definition update_from_feedback (strategy : StrategyName) (ok : bool)
    (self : t) : option t :=
  let c := strategy_success self strategy in
  let success' :=
    set_item (strategy_success self) strategy
      {| success := if ok then (success c + 1)%Z else success c;
         total := (total c + 1)%Z |} in
  let w1 := reinforce strategy ok self in
  let total_weight := sum_weights w1 in
  if Qeq_bool total_weight 0 then None
  else
    Some {| strategy_weights := fun key => Qred (w1 key / total_weight);
            strategy_success := success' |}.

(** A sequence of feedback calls, oldest first. *)
Fixpoint run_feedback (calls : list (StrategyName * bool)) (self : t)
    : option t :=
  match calls with
  | [] => Some self
  | (strategy, ok) :: calls' =>
      match update_from_feedback strategy ok self with
      | Some self' => run_feedback calls' self'
      | None => None
      end
  end.

Record Stats : Type := {
  weight : number;
  success_rate : number;
  total_uses : Z
}.

(** [get_strategy_stats()[strategy]]; [None] if computing the entry
    raises. *)
Definition get_strategy_stats (self : t) (strategy : StrategyName)
    : option Stats :=
  match _get_success_rate self strategy with
  | Some rate =>
      Some {| weight := strategy_weights self strategy;
              success_rate := rate;
              total_uses := total (strategy_success self strategy) |}
  | None => None
  end.

(** [_select_by_weights] *)
Definition _select_by_weights (self : t) : StrategyName :=
  max_by (strategy_weights self).

(** *** Vocabulary of the statements about selection and counters *)

(** The position of a name in [self.strategies]. *)
Definition rank (s : StrategyName) : nat :=
  match s with
  | RuleBased => 0
  | Retrieval => 1
  | ClassicalML => 2
  | Transformer => 3
  end.

(** Where a fresh selector sends an intent that reaches the scoring. *)
Definition fresh_route (intent : string) : StrategyName :=
  if String.eqb intent "rule_violation" then RuleBased
  else if String.eqb intent "calculation" then ClassicalML
  else if qualitative intent then Transformer
  else ClassicalML.

(** How many calls of a feedback sequence name [strategy], and how many
    of those report success. *)
Definition count_calls (strategy : StrategyName)
    (calls : list (StrategyName * bool)) : Z :=
  Z.of_nat
    (List.length (List.filter (fun c => strategy_eqb strategy (fst c)) calls)).

Definition count_successes (strategy : StrategyName)
    (calls : list (StrategyName * bool)) : Z :=
  Z.of_nat
    (List.length
       (List.filter (fun c => strategy_eqb strategy (fst c) && snd c) calls)).


(** *** Vocabulary of the statements about weights *)

(** Every weight is strictly positive. *)
Definition positive (self : t) : Prop :=
  forall key, (0 < strategy_weights self key)%Q.

Definition factor (ok : bool) : Q := if ok then 1.1%Q else 0.9%Q.

(** The weights after the multiplicative step, as plain rationals. *)
Definition scaled (self : t) (strategy : StrategyName) (ok : bool)
    (key : StrategyName) : Q :=
  if strategy_eqb strategy key
  then (strategy_weights self strategy * factor ok)%Q
  else strategy_weights self key.

Definition plain_sum (w : StrategyName -> Q) : Q :=
  (w RuleBased + w Retrieval + w ClassicalML + w Transformer)%Q.





End Selector.

(** ** Results of the strategies *)

(** The triple [(answer, confidence, reason)] returned by [predict]. *)
Record Prediction : Type := Triple {
  answer : string;
  confidence : Q;
  reason : string
}.

(** The 4-tuple returned by [execute_strategy]. *)
Record Outcome : Type := Executed {
  out_answer : string;
  out_confidence : Q;
  out_reason : string;
  out_strategy : StrategyName
}.

(** ** [learners/rule_engine.py] *)

Module RuleEngine.

(** The regular expressions of [restricted_patterns]. *)
Inductive Pattern : Set :=
  | Literal (word : string)
  | DotStar (before after : string).

Definition re_search (p : Pattern) (s : string) : bool :=
  match p with
  | Literal w => Text.contains w s
  | DotStar a b => Text.search_dotstar a b s
  end.

Definition restricted_patterns : list Pattern :=
  [DotStar "predict" "mark"; DotStar "predict" "score"; DotStar "how" "hack";
   DotStar "bypass" "security"; DotStar "cheat" "exam"; Literal "illegal"].

Definition static_rules : list (string * string) :=
  [("what is meta-learning",
    "Meta-learning is the process of 'learning how to learn', where an AI system automatically selects the best learning strategy for a given task.");
   ("who created you",
    "I am a Meta-Learning AI System developed as a project demonstration.");
   ("help",
    "I can answer questions using different strategies: Rule-based, Retrieval, Classical ML, or Transformers. Try verifying different types of queries!");
   ("version", "System Version 1.0.0 (Production Ready)");
   ("minimum attendance",
    "The minimum attendance requirement is 75% for students and 3 hours per week for project participants.");
   ("minimum age",
    "The minimum age requirement for participation is 16 years of age or older.");
   ("attendance requirement",
    "Attendance is mandatory at 75% threshold with a minimum of 3 active hours per week.");
   ("perform calculations",
    "The system supports simple arithmetic operations (+, -, *, /) through its Classical ML engine. It does not support complex calculus or advanced statistical modeling currently.");
   ("what calculations",
    "I can help with basic addition, subtraction, multiplication, and division.");
   ("how do you learn",
    "I learn by selecting the best strategy for your question and improving my strategy weights based on your 'Helpful' feedback.")].

Definition indian_states : list string :=
  ["andhra pradesh"; "arunachal pradesh"; "assam"; "bihar"; "chhattisgarh";
   "goa"; "gujarat"; "haryana"; "himachal pradesh"; "jharkhand"; "karnataka";
   "kerala"; "madhya pradesh"; "maharashtra"; "manipur"; "meghalaya";
   "mizoram"; "nagaland"; "odisha"; "punjab"; "rajasthan"; "sikkim";
   "tamil nadu"; "telangana"; "tripura"; "uttar pradesh"; "uttarakhand";
   "west bengal"].

(** [for state in indian_states: if state in query_lower: return ...] *)
Definition first_state_in (query_lower : string) : option string :=
  List.find (fun state => Text.contains state query_lower) indian_states.

Definition _is_invalid_role_query (query : string) : bool * string :=
  let query_lower := Text.lower query in
  let pm :=
    if Text.contains "prime minister" query_lower
       || Text.contains "pm of" query_lower
    then first_state_in query_lower else None in
  match pm with
  | Some state =>
      (true,
       "In India, " ++ Text.title state
       ++ " is a state and has a Chief Minister, not a Prime Minister. Are you looking for the Chief Minister of "
       ++ Text.title state ++ "?")
  | None =>
      let pres :=
        if Text.contains "president" query_lower
        then first_state_in query_lower else None in
      match pres with
      | Some state =>
          (true,
           "Individual states in India do not have their own Presidents. They are headed by Governors. Were you looking for the Governor of "
           ++ Text.title state ++ " or the President of India?")
      | None => (false, "")
      end
  end.

Definition refusal : string :=
  "I cannot fulfill this request. My safety protocols prevent me from answering queries related to predictions of personal scores, hacking, or unethical activities.".

(** [for key, answer in static_rules.items(): if key in query_lower] *)
Definition first_static_rule (query_lower : string) : option (string * string) :=
  List.find (fun rule => Text.contains (fst rule) query_lower) static_rules.

Definition predict (query : string) (features : Features) : Prediction :=
  let query_lower := Text.strip (Text.lower query) in
  let '(is_invalid, correction) := _is_invalid_role_query query_lower in
  if is_invalid then Triple correction 1.0 "Role-Entity Mismatch Detected"
  else if existsb (fun p => re_search p query_lower) restricted_patterns
  then Triple refusal 1.0 "Safety Rule Violation Blocked"
  else
    match first_static_rule query_lower with
    | Some (key, ans) => Triple ans 1.0 ("Static Rule Match: '" ++ key ++ "'")
    | None => Triple "" 0.0 "No rule matched"
    end.

(** Whether some rule fires: a role-entity mismatch, a restricted
    pattern or a static FAQ key. *)
Definition matches (query : string) : bool :=
  let query_lower := Text.strip (Text.lower query) in
  fst (_is_invalid_role_query query_lower)
  || existsb (fun p => re_search p query_lower) restricted_patterns
  || match first_static_rule query_lower with
     | Some _ => true
     | None => false
     end.

End RuleEngine.

(** ** [learners/ml_engine.py]: the parts that need no fitted model *)

Module MLEngine.

Definition intent_patterns : list (string * list string) :=
  [("definition", ["what is"; "define"; "meaning of"; "explain"]);
   ("comparison",
    ["difference between"; "compare"; "versus"; "vs"; "better than"]);
   ("procedure", ["how to"; "steps to"; "process of"; "guide for"; "way to"]);
   ("reason", ["why"; "reason for"; "cause of"; "due to"]);
   ("example", ["example of"; "instance of"; "sample"; "show me"]);
   ("calculation",
    ["calculate"; "compute"; "solve"; "find value"; "sum of"; "avg";
     "average"; "mean"])].

Definition is_operator (c : ascii) : bool :=
  Ascii.eqb c "+"%char || Ascii.eqb c "-"%char || Ascii.eqb c "*"%char
  || Ascii.eqb c "/"%char.

(** What must follow a digit for [\d+\s*[\+\-\*\/]\s*\d+] to match. *)
Definition operator_then_digit (s : string) : bool :=
  match Text.lstrip s with
  | String c rest =>
      is_operator c &&
      match Text.lstrip rest with
      | String d _ => Text.is_digit d
      | EmptyString => false
      end
  | EmptyString => false
  end.

Fixpoint search_arithmetic (s : string) : bool :=
  match s with
  | EmptyString => false
  | String c s' =>
      (Text.is_digit c && operator_then_digit s') || search_arithmetic s'
  end.

Definition _is_calculation (query : string) : bool :=
  let q := Text.lower query in
  Text.any_in
    ["calculate"; "solve"; "plus"; "minus"; "times"; "divided"; "avg";
     "average"; "mean"; "sum"] q
  || search_arithmetic q.

Definition _generate_intent_response (intent : string) : string :=
  if String.eqb intent "definition"
  then "This is a definition query. Use Retrieval for details."
  else if String.eqb intent "comparison"
  then "This is a comparison query. Use Transformer for details."
  else if String.eqb intent "procedure"
  then "This is a how-to query. Use Retrieval for details."
  else if String.eqb intent "reason"
  then "This is a reasoning query. Use Transformer for details."
  else if String.eqb intent "example"
  then "This is an example query. Use Transformer for details."
  else if String.eqb intent "calculation" then "Calculation processed."
  else "Intent recognized.".

Definition _rule_based_fallback (query : string) : Prediction :=
  let q := Text.lower query in
  match List.find (fun entry => Text.any_in (snd entry) q) intent_patterns with
  | Some (intent, _) =>
      Triple (_generate_intent_response intent) 0.4 ("Pattern: " ++ intent)
  | None => Triple "I'm not sure, but I'm learning!" 0.1 "Unknown"
  end.

(** The answer of [_handle_calculation] when its body returns nothing
    or raises. *)
Definition calculation_fallback : Prediction :=
  Triple "Calculation not supported. I do basic math and averages." 0.4
         "Fallback".

End MLEngine.

(** ** [learners/transformer_engine.py]: the parts that need no model *)

Module TransformerEngine.

Definition governance_keywords : list string :=
  ["prime minister"; "chief minister"; "president"; "governor";
   "current leader"].

Definition governance_block : Prediction :=
  Triple
    "I am restricted from generating responses about active political leaders or governance to prevent hallucinations. Please use the Retrieval strategy."
    0.0 "Governance Block (Policy)".

(** [s.split()] *)
Fixpoint split_go (word : list ascii) (s : string) : list string :=
  let flush (rest : list string) :=
    match word with
    | [] => rest
    | _ => string_of_list_ascii (rev word) :: rest
    end in
  match s with
  | EmptyString => flush []
  | String c s' =>
      if Text.is_space c then flush (split_go [] s')
      else split_go (c :: word) s'
  end.

Definition split (s : string) : list string := split_go [] s.

Definition stop_words : list string :=
  ["what"; "is"; "how"; "why"; "does"; "do"; "can"; "the"; "a"; "an"].

Definition _extract_topic (query : string) : string :=
  let words := split (Text.lower query) in
  let meaningful_words :=
    List.filter (fun w => negb (existsb (String.eqb w) stop_words)
                     && (3 <? String.length w)%nat) words in
  match meaningful_words with
  | [] => "the topic"
  | _ => String.concat " " (firstn 3 meaningful_words)
  end.

Definition _simulate_response (query : string) (features : Features)
    : Prediction :=
  let query_lower := Text.lower query in
  if Text.any_in ["why"; "how"; "explain"] query_lower then
    let topic := _extract_topic query in
    Triple
      ("Let me explain this concept in detail. "
       ++ (if Text.nonempty topic then topic else "this concept")
       ++ " involves multiple interconnected aspects that work together to achieve the desired outcome. The key principles include understanding the fundamentals, applying systematic approaches, and iterating based on results.")
      0.82 "Complex explanation requiring reasoning"
  else if match f_complexity features with
          | Some c => String.eqb c "high"
          | None => false
          end then
    Triple
      "This is a multifaceted question that requires careful analysis. Several factors contribute to this phenomenon, including technical constraints, theoretical foundations, and practical considerations."
      0.78 "High complexity query"
  else
    let concept := _extract_topic query in
    Triple
      ("To understand why this works, we need to consider the underlying mechanisms. The process relies on "
       ++ (if Text.nonempty concept then concept else "the underlying principle")
       ++ " which enables the system to learn patterns from data and make informed decisions.")
      0.75 "Reasoning required".

End TransformerEngine.

(** ** Exceptions, external payloads and the execution monad *)

Inductive Exn : Set :=
  | Timeout                      (* requests.exceptions.Timeout *)
  | Failure (message : string).  (* any other Exception *)

(** [f"{e}"] *)
Definition exn_text (e : Exn) : string :=
  match e with
  | Timeout => "Timeout"
  | Failure message => message
  end.

Inductive Provider : Set :=
  | DuckDuckGo
  | WikipediaSummary
  | WikipediaSearch.

(** What an execution leaves in its trace. *)
Inductive Event : Set :=
  | Predict (strategy : StrategyName)   (* a call of [strategy.predict] *)
  | SimilaritySearch                    (* the TF-IDF cosine search *)
  | Request (provider : Provider).      (* a call of [requests.get] *)

(** [requests.get] raises, or gives a response whose [json()] raises
    or yields the payload. *)
Inductive Http (A : Type) : Type :=
  | Raised (e : Exn)
  | Response (status_code : Z) (json : Exn + A).

Arguments Raised {A} e.
Arguments Response {A} status_code json.

Record DuckDuckGoData : Type := {
  AbstractText : option string;
  Answer : option string;
  DefinitionText : option string
}.

Record WikipediaSummaryData : Type := {
  extract : option string;
  page_title : option string
}.

(** The hits of [search_data['query']['search']], each with its
    ['title'] if it has one. *)
Definition WikipediaSearchData : Type := list (option string).

(** The outside world and the collaborators of the engines. *)
Class Services : Type := {
  World : Type;
  (** [RetrievalEngine]: [self.documents], whether [self.vectorizer] is
      set, the search [transform] / [cosine_similarity] / [argmax], the
      format [:.2f], and the three HTTP endpoints. *)
  documents : list string;
  vectorizer : bool;
  vector_search : string -> Exn + (nat * Q);
  format_2f : Q -> string;
  duckduckgo_api : string -> World -> Http DuckDuckGoData * World;
  wikipedia_summary_api :
    string -> World -> Http WikipediaSummaryData * World;
  wikipedia_search_api :
    string -> World -> Http WikipediaSearchData * World;
  (** How many nested calls of [_fetch_wikipedia] the interpreter allows
      before it raises [RecursionError]. *)
  recursion_limit : nat;
  (** [MLEngine]: whether [self.model] is set, [predict_proba] with its
      [argmax], and the body of the [try] of [_handle_calculation]. *)
  model : bool;
  classify : string -> Exn + (string * Q);
  calculation_body : string -> Exn + option Prediction;
  (** [TransformerEngine]: [self.simulation_mode] and the body of the
      [try] of [predict] (tokenise, generate, decode, validate). *)
  simulation_mode : bool;
  inference : string -> World -> (Exn + Prediction) * World
}.

Section Engines.

Context {services : Services}.

Record Env : Type := {
  world : World;
  cache : gmap string Prediction;
  trace : list Event
}.

(** Computations that read and write the environment and may raise. *)
Definition M (A : Type) : Type := Env -> (Exn + A) * Env.

Definition ret {A : Type} (a : A) : M A := fun env => (inr a, env).

Definition raise {A : Type} (e : Exn) : M A := fun env => (inl e, env).

Definition bind {A B : Type} (m : M A) (k : A -> M B) : M B :=
  fun env =>
    match m env with
    | (inr a, env') => k a env'
    | (inl e, env') => (inl e, env')
    end.

(** [try: body  except Exception as e: handler(e)] *)
Definition try_except {A : Type} (body : M A) (handler : Exn -> M A) : M A :=
  fun env =>
    match body env with
    | (inr a, env') => (inr a, env')
    | (inl e, env') => handler e env'
    end.

Notation "'let*' x ':=' c1 'in' c2" := (bind c1 (fun x => c2))
  (at level 10, x name, c1 at level 100, c2 at level 200).

Definition emit (ev : Event) : M unit :=
  fun env =>
    (inr tt,
     {| world := world env; cache := cache env;
        trace := trace env ++ [ev] |}).

Definition get_cache : M (gmap string Prediction) :=
  fun env => (inr (cache env), env).

(** [self.cache[key] = result] *)
Definition put_cache (key : string) (result : Prediction) : M unit :=
  fun env =>
    (inr tt,
     {| world := world env; cache := <[key := result]> (cache env);
        trace := trace env |}).

(** A value or an exception computed without touching the environment. *)
Definition lift {A : Type} (r : Exn + A) : M A :=
  match r with
  | inr a => ret a
  | inl e => raise e
  end.

(** [requests.get] against one provider. *)
Definition http_get {A : Type} (provider : Provider)
    (api : World -> Http A * World) : M (Z * (Exn + A)) :=
  fun env =>
    let env1 :=
      {| world := world env; cache := cache env;
         trace := trace env ++ [Request provider] |} in
    match api (world env1) with
    | (Raised e, w) =>
        (inl e, {| world := w; cache := cache env1; trace := trace env1 |})
    | (Response status_code json, w) =>
        (inr (status_code, json),
         {| world := w; cache := cache env1; trace := trace env1 |})
    end.

Definition unavailable (label : string) : Prediction :=
  Triple "" 0.0 label.

(** [x or y] on optional strings: [x] if it is a non-empty string. *)
Definition or_else (x : option string) (y : option string) : option string :=
  match x with
  | Some s => if Text.nonempty s then x else y
  | None => y
  end.

Definition _fetch_duckduckgo (query : string) : M Prediction :=
  let* found :=
    try_except
      (let* response := http_get DuckDuckGo (duckduckgo_api query) in
       if (fst response =? 200)%Z then
         let* data := lift (snd response) in
         let ans :=
           or_else (AbstractText data)
             (or_else (Answer data) (Some (get_or (DefinitionText data) ""))) in
         match ans with
         | Some a =>
             if Text.nonempty a
             then ret (Some (Triple a 0.85 "Web Retrieval (DuckDuckGo IA)"))
             else ret None
         | None => ret None
         end
       else ret None)
      (fun _ => ret None) in
  match found with
  | Some result => ret result
  | None => ret (unavailable "DuckDuckGo unavailable")
  end.

Definition search_term_of (query : string) : string :=
  let s := Text.lower query in
  let s := Text.replace "?" "" s in
  let s := Text.replace "who is" "" s in
  let s := Text.replace "what is" "" s in
  let s := Text.replace "the current" "" s in
  let s := Text.replace "the" "" s in
  Text.strip s.

Definition search_url_term_of (search_term : string) : string :=
  Text.title (Text.replace " " "_" search_term).

(** [frames] is the number of nested calls still allowed. *)
Fixpoint _fetch_wikipedia (frames : nat) (query : string) : M Prediction :=
  let* found :=
    try_except
      (let search_term := search_term_of query in
       let search_url_term := search_url_term_of search_term in
       let* response :=
         http_get WikipediaSummary (wikipedia_summary_api search_url_term) in
       if (fst response =? 200)%Z then
         let* data := lift (snd response) in
         match extract data with
         | Some text =>
             ret (Some (Triple text 0.90
                          ("Wikipedia: " ++ get_or (page_title data) "None")))
         | None => ret None
         end
       else if (fst response =? 404)%Z then
         let* search_res :=
           http_get WikipediaSearch (wikipedia_search_api search_term) in
         if (fst search_res =? 200)%Z then
           let* search_data := lift (snd search_res) in
           match search_data with
           | [] => ret None
           | Some top_title :: _ =>
               match frames with
               | S frames' =>
                   let* result := _fetch_wikipedia frames' top_title in
                   ret (Some result)
               | O => raise (Failure "RecursionError")
               end
           | None :: _ => raise (Failure "KeyError: 'title'")
           end
         else ret None
       else ret None)
      (fun _ => ret None) in
  match found with
  | Some result => ret result
  | None => ret (unavailable "Wikipedia unavailable")
  end.

Definition _fetch_from_web_apis (query : string) : M Prediction :=
  let* result := _fetch_duckduckgo query in
  if Text.nonempty (answer result) then ret result
  else
    let* result := _fetch_wikipedia recursion_limit query in
    if Text.nonempty (answer result) then ret result
    else ret (unavailable "Web retrieval failed (all APIs exhausted)").

(** Step 2 of [RetrievalEngine.predict]: the local knowledge base. *)
Definition local_search (query query_norm : string) : M (option Prediction) :=
  if negb (Nat.eqb (List.length documents) 0) && vectorizer then
    try_except
      (let* _ := emit SimilaritySearch in
       let* best := lift (vector_search query) in
       let best_match_idx := fst best in
       let best_score := snd best in
       if Qltb 0.4 best_score then
         match nth_error documents best_match_idx with
         | Some document =>
             let result :=
               Triple document best_score
                 ("Local KB (Similarity: " ++ format_2f best_score ++ ")") in
             let* _ := put_cache query_norm result in
             ret (Some result)
         | None => raise (Failure "IndexError")
         end
       else ret None)
      (fun _ => ret None)
  else ret None.

(** [RetrievalEngine.predict] *)
Definition retrieval_predict (query : string) (features : Features)
    : M Prediction :=
  let query_norm := Text.strip (Text.lower query) in
  let* known := get_cache in
  match known !! query_norm with
  | Some result => ret result
  | None =>
      let* local := local_search query query_norm in
      match local with
      | Some result => ret result
      | None =>
          let* result := _fetch_from_web_apis query_norm in
          let* _ :=
            if Qltb 0.1 (confidence result)
            then put_cache query_norm result
            else ret tt in
          ret result
      end
  end.

(** [MLEngine._handle_calculation] *)
Definition _handle_calculation (query : string) : M Prediction :=
  let* found :=
    try_except (lift (calculation_body query)) (fun _ => ret None) in
  match found with
  | Some result => ret result
  | None => ret MLEngine.calculation_fallback
  end.

(** [MLEngine.predict] *)
Definition ml_predict (query : string) (features : Features) : M Prediction :=
  if negb (Text.nonempty query) then ret (Triple "" 0.0 "Empty query")
  else if MLEngine._is_calculation query then _handle_calculation query
  else
    let* found :=
      try_except
        (if model then
           let* best := lift (classify query) in
           let intent := fst best in
           let conf := snd best in
           if Qltb 0.3 conf
           then ret (Some (Triple (MLEngine._generate_intent_response intent)
                             conf ("ML Intent: " ++ intent)))
           else ret None
         else ret None)
        (fun _ => ret None) in
    match found with
    | Some result => ret result
    | None => ret (MLEngine._rule_based_fallback query)
    end.

(** [TransformerEngine.predict] *)
Definition transformer_predict (query : string) (features : Features)
    : M Prediction :=
  if simulation_mode
  then ret (TransformerEngine._simulate_response query features)
  else if Text.any_in TransformerEngine.governance_keywords (Text.lower query)
  then ret TransformerEngine.governance_block
  else
    try_except
      (fun env =>
         match inference query (world env) with
         | (r, w) =>
             (r, {| world := w; cache := cache env; trace := trace env |})
         end)
      (fun e =>
         ret (Triple "I don’t have verified information for this query."
                0.0 ("Inference Error: " ++ exn_text e))).

(** [self.strategies[strategy_name]]: the [predict] method of the engine
    registered under a name. *)
Definition strategies (strategy_name : StrategyName)
    : string -> Features -> M Prediction :=
  match strategy_name with
  | RuleBased => fun query features => ret (RuleEngine.predict query features)
  | Retrieval => retrieval_predict
  | ClassicalML => ml_predict
  | Transformer => transformer_predict
  end.

(** [self.strategies[strategy_name].predict(query, features)]; the call
    is recorded in the trace. *)
Definition predict (strategy_name : StrategyName) (query : string)
    (features : Features) : M Prediction :=
  let* _ := emit (Predict strategy_name) in
  strategies strategy_name query features.

Definition safe_refusal : string :=
  "I don’t have verified information for this query. Please refine the question or provide a trusted source.".

(** [StrategySelector.execute_strategy] *)
Definition execute_strategy (strategy_name : StrategyName) (query : string)
    (features : Features) : M Outcome :=
  let* rule := predict RuleBased query features in
  if Qle_bool 0.9 (confidence rule)
  then ret (Executed (answer rule) (confidence rule) (reason rule) RuleBased)
  else
    let intent := get_or (f_intent features) "general" in
    let* primary := predict strategy_name query features in
    let checked :=
      if Text.is_blank (answer primary)
      then Triple "" 0.0
             ("Empty response from " ++ strategy_label strategy_name)
      else primary in
    if Qltb (confidence checked) Selector.confidence_threshold then
      if String.eqb intent "factual" || strategy_eqb strategy_name Transformer
      then ret (Executed safe_refusal 0.0
                  "Safe Failure: Confidence below threshold" strategy_name)
      else
        let* fallback := predict Transformer query features in
        if Qltb (confidence fallback) 0.2
        then ret (Executed safe_refusal 0.0
                    ("Safe Failure: High Hallucination Risk ("
                     ++ reason fallback ++ ")")
                    Transformer)
        else ret (Executed (answer fallback) (confidence fallback)
                    (reason fallback) Transformer)
    else ret (Executed (answer checked) (confidence checked) (reason checked)
                strategy_name).

(** The strategies whose [predict] a trace records, in call order. *)
Definition predict_calls (events : list Event) : list StrategyName :=
  flat_map (fun ev => match ev with Predict s => [s] | _ => [] end) events.

(** Whether an event is a similarity search or a provider request. *)
Definition is_lookup (ev : Event) : bool :=
  match ev with
  | SimilaritySearch | Request _ => true
  | Predict _ => false
  end.

(** How often a trace records a call of [Transformer.predict]. *)
Definition transformer_calls (events : list Event) : nat :=
  List.length
    (List.filter (strategy_eqb Transformer) (predict_calls events)).

(** *** Vocabulary of the statements about executions *)

(** A computation that returns a value from every environment. *)
Definition never_raises {A : Type} (m : M A) : Prop :=
  forall env, exists a env', m env = (inr a, env').

(** A computation whose every run relates its environments by [R]. *)
Definition preserves (R : Env -> Env -> Prop) {A : Type} (m : M A) : Prop :=
  forall env r env', m env = (r, env') -> R env env'.

(** Relations that hold across a lookup: a similarity search or a
    provider request, with whatever it does to the world. *)
Record Frame (R : Env -> Env -> Prop) : Prop := {
  frame_refl : forall env, R env env;
  frame_trans : forall e1 e2 e3, R e1 e2 -> R e2 e3 -> R e1 e3;
  frame_lookup : forall env ev w,
    is_lookup ev = true ->
    R env {| world := w; cache := cache env; trace := trace env ++ [ev] |};
  frame_world : forall env w,
    R env {| world := w; cache := cache env; trace := trace env |}
}.

(** Relations that also hold across a write to the cache. *)
Definition CacheBlind (R : Env -> Env -> Prop) : Prop :=
  forall env c, R env {| world := world env; cache := c; trace := trace env |}.

Definition same_cache (env env' : Env) : Prop := cache env' = cache env.

Definition same_calls (env env' : Env) : Prop :=
  predict_calls (trace env') = predict_calls (trace env).

Definition extends (env env' : Env) : Prop :=
  exists later : list Event, trace env' = (trace env ++ later)%list.

(** A computation whose every returned value satisfies [P]. *)
Definition returns {A : Type} (P : A -> Prop) (m : M A) : Prop :=
  forall env a env', m env = (inr a, env') -> P a.

(** The cache keeps what it had, and gains at most an entry for the
    normalised [query], of confidence above 0.1. *)
Definition cache_step (query : string) (env env' : Env) : Prop :=
  (forall key entry,
     cache env !! key = Some entry -> cache env' !! key = Some entry)
  /\ (forall key entry,
        cache env' !! key = Some entry ->
        cache env !! key = Some entry
        \/ (key = Text.normalize query /\ (0.1 < confidence entry)%Q)).

(** The results the web tier can give. *)
Definition web_result (result : Prediction) : Prop :=
  (Text.nonempty (answer result) = true
   /\ confidence result = 0.85%Q
   /\ reason result = "Web Retrieval (DuckDuckGo IA)")
  \/ (Text.nonempty (answer result) = true
      /\ confidence result = 0.90%Q)
  \/ result = unavailable "Web retrieval failed (all APIs exhausted)".

(** The environment right after [ev] is recorded. *)
Definition recorded (ev : Event) (env : Env) : Env :=
  {| world := world env; cache := cache env; trace := trace env ++ [ev] |}.

End Engines.

(** ** Concrete collaborators and inputs used by the examples *)

Module Demo.

(** A world that counts the requests made so far.  DuckDuckGo times
    out on the first two requests and answers afterwards; Wikipedia has
    no page and no search hit; the local index scores every query 0.2;
    no classifier is fitted; the Transformer runs in simulation mode. *)
#[export] Instance services : Services := {
  World := nat;
  documents := ["Python is a programming language."];
  vectorizer := true;
  vector_search := fun _ => inr (0%nat, 0.2%Q);
  format_2f := fun _ => "0.20";
  duckduckgo_api := fun _ w =>
    if (w <? 2)%nat then (Raised Timeout, S w)
    else
      (Response 200
         (inr {| AbstractText := Some "Python is a high-level language.";
                 Answer := None; DefinitionText := None |}),
       S w);
  wikipedia_summary_api := fun _ w =>
    (Response 404 (inl (Failure "JSONDecodeError")), S w);
  wikipedia_search_api := fun _ w => (Response 200 (inr []), S w);
  recursion_limit := 1000;
  model := false;
  classify := fun _ => inl (Failure "NotFittedError");
  calculation_body := fun _ => inr None;
  simulation_mode := true;
  inference := fun _ w => (inl (Failure "model not loaded"), w)
}.

Definition fresh (w : nat) : Env :=
  {| world := w; cache := ∅; trace := [] |}.

(** A hand-built feature dictionary: factual intent, flagged as a rule
    violation. *)
Definition flagged_factual : Features :=
  {| f_query := Some "what is the rule"; f_length := Some 16%Z;
     f_has_number := Some false; f_intent := Some "factual";
     f_complexity := Some "low"; f_is_rule_violation := Some true |}.

Definition plain_factual : Features :=
  {| f_query := Some "what is python?"; f_length := Some 15%Z;
     f_has_number := Some false; f_intent := Some "factual";
     f_complexity := Some "low"; f_is_rule_violation := Some false |}.

(** Eleven "not helpful" feedbacks for answers of Classical ML. *)
Definition ml_failures : list (StrategyName * bool) :=
  repeat (ClassicalML, false) 11.

Definition calculation_query : string := "calculate and explain the result".

(** The same collaborators with a loaded generative model that answers
    every prompt with one fixed sentence. *)
#[export] Instance loaded : Services := {
  World := nat;
  documents := ["Python is a programming language."];
  vectorizer := true;
  vector_search := fun _ => inr (0%nat, 0.9%Q);
  format_2f := fun _ => "0.90";
  duckduckgo_api := fun _ w => (Raised Timeout, S w);
  wikipedia_summary_api := fun _ w =>
    (Response 200
       (inr {| extract := Some "Python is a language.";
               page_title := Some "Python" |}),
     S w);
  wikipedia_search_api := fun _ w => (Response 200 (inr []), S w);
  recursion_limit := 1000;
  model := true;
  classify := fun _ => inr ("definition", 0.9%Q);
  calculation_body := fun _ => inr None;
  simulation_mode := false;
  inference := fun _ w =>
    (inr (Triple "A generated sentence." 0.85
            "Generated by Flan-T5 Transformer"),
     w)
}.

Definition fresh_loaded (w : nat) : @Env loaded :=
  {| world := w; cache := ∅; trace := [] |}.

(** A selector whose weights are normalised and equal. *)
Definition uniform : Selector.t :=
  {| Selector.strategy_weights := fun _ => 0.25%Q;
     Selector.strategy_success :=
       fun _ => {| Selector.success := 0; Selector.total := 0 |} |}.

(** A record that reaches the scoring: intent explanation, complexity
    high. *)
Definition explanation_features : Features :=
  {| f_query := Some "explain how neural networks learn";
     f_length := Some 33%Z; f_has_number := Some false;
     f_intent := Some "explanation"; f_complexity := Some "high";
     f_is_rule_violation := Some false |}.

End Demo.

(** * Properties *)

(** ** Rational arithmetic of the model *)

Lemma Qltb_lt (a b : Q) : Qltb a b = true <-> (a < b)%Q.
Proof.
  unfold Qltb. rewrite negb_true_iff.
  split; intros H.
  - apply Qnot_le_lt. intros Hle. apply Qle_bool_iff in Hle. congruence.
  - destruct (Qle_bool b a) eqn:E; [|reflexivity].
    apply Qle_bool_iff in E. exfalso. exact (Qlt_not_le _ _ H E).
Qed.

Lemma Qltb_ge (a b : Q) : Qltb a b = false <-> (b <= a)%Q.
Proof.
  unfold Qltb. rewrite negb_false_iff. apply Qle_bool_iff.
Qed.

Lemma py_mul_eq (a b : Q) : (py_mul a b == a * b)%Q.
Proof. apply Qred_correct. Qed.

Lemma py_add_eq (a b : Q) : (py_add a b == a + b)%Q.
Proof. apply Qred_correct. Qed.

(** ** Selection *)

Lemma strategy_eqb_eq (a b : StrategyName) : strategy_eqb a b = true <-> a = b.
Proof. destruct a, b; simpl; split; congruence. Qed.

Lemma strategy_eqb_neq (a b : StrategyName) :
  strategy_eqb a b = false <-> a <> b.
Proof. destruct a, b; simpl; split; congruence. Qed.

(** C1, as stated, fails: a record with factual intent that is flagged as
    a rule violation is routed to Rule-Based, because the safety check
    comes first. *)
Lemma select_factual_flagged_is_rule_based :
  f_intent Demo.flagged_factual = Some "factual"
  /\ Selector.select_strategy Selector.init Demo.flagged_factual = RuleBased
  /\ Selector.select_strategy Selector.init Demo.flagged_factual <> Retrieval.
Proof. split; [reflexivity | split; [reflexivity | discriminate]]. Qed.

(** C1 (amended): for every selector state and every feature record with
    [intent = factual] whose rule-violation flag is not set,
    [select_strategy] returns Retrieval, whatever the other fields and
    the learned weights are. *)
Theorem select_factual_unflagged_is_retrieval
    (self : Selector.t) (features : Features) :
  f_intent features = Some "factual" ->
  truthy (f_is_rule_violation features) = false ->
  Selector.select_strategy self features = Retrieval.
Proof.
  intros Hintent Hflag. unfold Selector.select_strategy.
  rewrite Hflag, Hintent. reflexivity.
Qed.

Lemma select_factual_unflagged_is_retrieval_witness :
  Selector.select_strategy Selector.init Demo.plain_factual = Retrieval.
Proof.
  apply (select_factual_unflagged_is_retrieval Selector.init Demo.plain_factual);
    reflexivity.
Defined.

(** The Transformer guard itself: outside the qualitative intents the
    base score of Transformer is 0.1, whatever the matrix row says. *)
Lemma transformer_base_score_overridden (intent : string) :
  Selector.qualitative intent = false ->
  Selector.base_score intent Transformer = 0.1%Q.
Proof. intros H. unfold Selector.base_score. rewrite H. reflexivity. Qed.

(** C6 (code at the failing input): after eleven failure feedbacks for
    Classical ML, the query "calculate and explain the result" (intent
    calculation, complexity high, no number, no rule violation, no
    factual indicator) has Transformer base score 0.1 and is still routed
    to Transformer: the complexity bonus 3.0 outweighs every other
    strategy's utility. *)
Theorem select_calculation_routes_to_transformer :
  let features := Analyzer.analyze Demo.calculation_query in
  f_intent features = Some "calculation"
  /\ truthy (f_is_rule_violation features) = false
  /\ Text.any_in Selector.factual_indicators
       (Text.lower (get_or (f_query features) "")) = false
  /\ Selector.base_score "calculation" Transformer = 0.1%Q
  /\ exists self,
       Selector.run_feedback Demo.ml_failures Selector.init = Some self
       /\ Selector.select_strategy self features = Transformer.
Proof.
  cbv zeta. repeat split; try reflexivity.
  destruct (Selector.run_feedback Demo.ml_failures Selector.init) as [self|] eqn:E.
  - exists self. split; [reflexivity|].
    assert (H : match Selector.run_feedback Demo.ml_failures Selector.init with
                | Some s =>
                    Selector.select_strategy s
                      (Analyzer.analyze Demo.calculation_query)
                | None => RuleBased
                end = Transformer) by (vm_compute; reflexivity).
    rewrite E in H. exact H.
  - exfalso.
    assert (H : match Selector.run_feedback Demo.ml_failures Selector.init with
                | Some _ => true
                | None => false
                end = true) by (vm_compute; reflexivity).
    rewrite E in H. discriminate.
Qed.

(** ** Weight learning *)

Section WeightFacts.

Import Selector.
Open Scope Q_scope.

Lemma sum_weights_plain (w : StrategyName -> Q) : sum_weights w == plain_sum w.
Proof.
  unfold sum_weights, plain_sum. simpl.
  rewrite !py_add_eq. ring.
Qed.

Lemma plain_sum_ext (w1 w2 : StrategyName -> Q) :
  (forall key, w1 key == w2 key) -> plain_sum w1 == plain_sum w2.
Proof.
  intros H. unfold plain_sum. rewrite !H. reflexivity.
Qed.

Lemma factor_pos (ok : bool) : 0 < factor ok.
Proof. destruct ok; reflexivity. Qed.

Lemma scaled_pos (self : t) (strategy : StrategyName) (ok : bool) :
  positive self -> forall key, 0 < scaled self strategy ok key.
Proof.
  intros Hpos key. unfold scaled.
  destruct (strategy_eqb strategy key).
  - apply Qmult_lt_0_compat; [apply Hpos | apply factor_pos].
  - apply Hpos.
Qed.

Lemma plain_sum_pos (w : StrategyName -> Q) :
  (forall key, 0 < w key) -> 0 < plain_sum w.
Proof.
  intros H. unfold plain_sum.
  pose proof (H RuleBased). pose proof (H Retrieval).
  pose proof (H ClassicalML). pose proof (H Transformer). lra.
Qed.


(** What one feedback call does to a state with positive weights. *)
Lemma update_from_feedback_spec (strategy : StrategyName) (ok : bool)
    (self : t) :
  positive self ->
  exists self',
    update_from_feedback strategy ok self = Some self'
    /\ (forall key,
          strategy_weights self' key
          == scaled self strategy ok key / plain_sum (scaled self strategy ok))
    /\ positive self'.
Proof.
  intros Hpos.
  set (w1 := reinforce strategy ok self).
  assert (Hw1 : forall key, w1 key == scaled self strategy ok key).
  { intros key. unfold w1, reinforce, set_item, scaled, factor.
    destruct (strategy_eqb strategy key); [|reflexivity].
    destruct ok; apply py_mul_eq. }
  assert (Hsum : sum_weights w1 == plain_sum (scaled self strategy ok)).
  { rewrite sum_weights_plain. apply plain_sum_ext, Hw1. }
  pose proof (plain_sum_pos _ (scaled_pos self strategy ok Hpos)) as Htot.
  unfold update_from_feedback. fold w1.
  destruct (Qeq_bool (sum_weights w1) 0) eqn:E.
  - apply Qeq_bool_eq in E. rewrite Hsum in E. rewrite E in Htot.
    discriminate.
  - eexists. split; [reflexivity|].
    assert (Hkey : forall key,
               Qred (w1 key / sum_weights w1)
               == scaled self strategy ok key
                  / plain_sum (scaled self strategy ok)).
    { intros key. rewrite Qred_correct, Hw1, Hsum. reflexivity. }
    split; [exact Hkey|].
    intros key. simpl. rewrite Hkey.
    apply Qlt_shift_div_l; [exact Htot|].
    rewrite Qmult_0_l. apply scaled_pos, Hpos.
Qed.

Lemma init_positive : positive init.
Proof. intros key. reflexivity. Qed.

Lemma run_feedback_app (calls1 calls2 : list (StrategyName * bool)) (self : t) :
  run_feedback (calls1 ++ calls2) self
  = match run_feedback calls1 self with
    | Some self' => run_feedback calls2 self'
    | None => None
    end.
Proof.
  revert self. induction calls1 as [|[strategy ok] calls1 IH]; intros self.
  - reflexivity.
  - simpl. destruct (update_from_feedback strategy ok self); [apply IH|reflexivity].
Qed.

(** Feedback never fails on positive weights, and keeps them positive. *)
Lemma run_feedback_positive (calls : list (StrategyName * bool)) (self : t) :
  positive self ->
  exists self', run_feedback calls self = Some self' /\ positive self'.
Proof.
  revert self. induction calls as [|[strategy ok] calls IH]; intros self Hpos.
  - exists self. split; [reflexivity|exact Hpos].
  - destruct (update_from_feedback_spec strategy ok self Hpos)
      as (self1 & Hup & _ & Hpos1).
    simpl. rewrite Hup. apply IH, Hpos1.
Qed.

Lemma normalised_sum (w : StrategyName -> Q) (w' : StrategyName -> Q) :
  0 < plain_sum w ->
  (forall key, w' key == w key / plain_sum w) ->
  plain_sum w' == 1.
Proof.
  intros Htot Hkey.
  assert (Hne : ~ plain_sum w == 0) by (intros E; rewrite E in Htot; discriminate).
  unfold plain_sum at 1. rewrite !Hkey.
  unfold plain_sum in *. field. exact Hne.
Qed.

(** C3: for every sequence of feedback calls issued to a fresh selector,
    each call succeeds and leaves weights whose sum is 1 (in the exact
    arithmetic of the model). *)
Theorem weights_sum_to_one_after_each_feedback
    (calls : list (StrategyName * bool)) (strategy : StrategyName) (ok : bool) :
  exists self',
    run_feedback (calls ++ [(strategy, ok)]) init = Some self'
    /\ sum_weights (strategy_weights self') == 1.
Proof.
  destruct (run_feedback_positive calls init init_positive)
    as (self & Hrun & Hpos).
  destruct (update_from_feedback_spec strategy ok self Hpos)
    as (self' & Hup & Hkey & _).
  exists self'. split.
  - rewrite run_feedback_app, Hrun. simpl. rewrite Hup. reflexivity.
  - rewrite sum_weights_plain.
    apply (normalised_sum (scaled self strategy ok)); [|exact Hkey].
    apply plain_sum_pos, scaled_pos, Hpos.
Qed.
















(** C10: a strategy with no recorded feedback is reported with success
    rate 0.5; computing its entry does not divide. *)
Theorem untested_strategy_success_rate (self : t) (strategy : StrategyName) :
  total (strategy_success self strategy) = 0%Z ->
  _get_success_rate self strategy = Some 0.5
  /\ get_strategy_stats self strategy
     = Some {| weight := strategy_weights self strategy;
               success_rate := 0.5;
               total_uses := 0 |}.
Proof.
  intros Hzero. unfold get_strategy_stats, _get_success_rate.
  rewrite Hzero. simpl. split; reflexivity.
Qed.

Lemma untested_strategy_success_rate_witness :
  _get_success_rate init Retrieval = Some 0.5
  /\ get_strategy_stats init Retrieval
     = Some {| weight := strategy_weights init Retrieval;
               success_rate := 0.5;
               total_uses := 0 |}.
Proof. apply (untested_strategy_success_rate init Retrieval). reflexivity. Defined.

End WeightFacts.

(** ** Executions *)

Section EngineFacts.

Context {services : Services}.

(** *** Computations that never raise *)

Lemma never_raises_ret {A : Type} (a : A) : never_raises (ret a).
Proof. intros env. exists a, env. reflexivity. Qed.

Lemma never_raises_bind {A B : Type} (m : M A) (k : A -> M B) :
  never_raises m -> (forall a, never_raises (k a)) -> never_raises (bind m k).
Proof.
  intros Hm Hk env. destruct (Hm env) as (a & env1 & E).
  destruct (Hk a env1) as (b & env2 & E2).
  exists b, env2. unfold bind. rewrite E. exact E2.
Qed.

(** A [try] whose handler returns absorbs whatever its body raises. *)
Lemma never_raises_try {A : Type} (body : M A) (handler : Exn -> M A) :
  (forall e, never_raises (handler e)) -> never_raises (try_except body handler).
Proof.
  intros Hh env. unfold try_except.
  destruct (body env) as [[e|a] env1].
  - apply Hh.
  - exists a, env1. reflexivity.
Qed.

Lemma never_raises_emit (ev : Event) : never_raises (emit ev).
Proof. intros env. eexists _, _. reflexivity. Qed.

Lemma never_raises_put_cache (key : string) (result : Prediction) :
  never_raises (put_cache key result).
Proof. intros env. eexists _, _. reflexivity. Qed.

Lemma never_raises_get_cache : never_raises get_cache.
Proof. intros env. eexists _, _. reflexivity. Qed.

Ltac total_step :=
  repeat first
    [ apply never_raises_ret
    | apply never_raises_emit
    | apply never_raises_put_cache
    | apply never_raises_get_cache
    | apply never_raises_try; intros ?
    | apply never_raises_bind; [|intros ?]
    | match goal with
      | |- never_raises (if ?c then _ else _) => destruct c
      | |- never_raises (match ?x with _ => _ end) => destruct x
      end ].

Lemma _fetch_duckduckgo_total (query : string) :
  never_raises (_fetch_duckduckgo query).
Proof. unfold _fetch_duckduckgo. total_step. Qed.

Lemma _fetch_wikipedia_total (frames : nat) (query : string) :
  never_raises (_fetch_wikipedia frames query).
Proof. destruct frames; simpl; total_step. Qed.

Lemma _fetch_from_web_apis_total (query : string) :
  never_raises (_fetch_from_web_apis query).
Proof.
  unfold _fetch_from_web_apis.
  apply never_raises_bind; [apply _fetch_duckduckgo_total|]. intros r.
  destruct (Text.nonempty (answer r)); [apply never_raises_ret|].
  apply never_raises_bind; [apply _fetch_wikipedia_total|]. intros r'.
  total_step.
Qed.

Lemma local_search_total (query query_norm : string) :
  never_raises (local_search query query_norm).
Proof. unfold local_search. total_step. Qed.

Lemma retrieval_predict_total (query : string) (features : Features) :
  never_raises (retrieval_predict query features).
Proof.
  unfold retrieval_predict.
  apply never_raises_bind; [apply never_raises_get_cache|]. intros known.
  destruct (known !! _); [apply never_raises_ret|].
  apply never_raises_bind; [apply local_search_total|]. intros [result|].
  - apply never_raises_ret.
  - apply never_raises_bind; [apply _fetch_from_web_apis_total|]. intros r.
    total_step.
Qed.

Lemma ml_predict_total (query : string) (features : Features) :
  never_raises (ml_predict query features).
Proof. unfold ml_predict, _handle_calculation. total_step. Qed.

Lemma transformer_predict_total (query : string) (features : Features) :
  never_raises (transformer_predict query features).
Proof. unfold transformer_predict. total_step. Qed.

Lemma predict_total (strategy_name : StrategyName) (query : string)
    (features : Features) :
  never_raises (predict strategy_name query features).
Proof.
  unfold predict. apply never_raises_bind; [apply never_raises_emit|].
  intros _. destruct strategy_name; simpl.
  - apply never_raises_ret.
  - apply retrieval_predict_total.
  - apply ml_predict_total.
  - apply transformer_predict_total.
Qed.

Lemma execute_strategy_total (strategy_name : StrategyName) (query : string)
    (features : Features) :
  never_raises (execute_strategy strategy_name query features).
Proof.
  unfold execute_strategy.
  apply never_raises_bind; [apply predict_total|]. intros rule.
  destruct (Qle_bool _ _); [apply never_raises_ret|].
  apply never_raises_bind; [apply predict_total|]. intros primary.
  cbv zeta.
  destruct (Qltb _ _); [|apply never_raises_ret].
  destruct (_ || _); [apply never_raises_ret|].
  apply never_raises_bind; [apply predict_total|]. intros fallback.
  total_step.
Qed.




(** *** What a computation leaves unchanged *)

Section Frames.

Variable R : Env -> Env -> Prop.
Hypothesis R_frame : Frame R.

Lemma preserves_ret {A : Type} (a : A) : preserves R (ret a).
Proof. intros env r env' E. inversion E; subst. apply (frame_refl R R_frame). Qed.

Lemma preserves_raise {A : Type} (e : Exn) : preserves R (raise (A := A) e).
Proof. intros env r env' E. inversion E; subst. apply (frame_refl R R_frame). Qed.

Lemma preserves_lift {A : Type} (x : Exn + A) : preserves R (lift x).
Proof. destruct x; [apply preserves_raise | apply preserves_ret]. Qed.

Lemma preserves_bind {A B : Type} (m : M A) (k : A -> M B) :
  preserves R m -> (forall a, preserves R (k a)) -> preserves R (bind m k).
Proof.
  intros Hm Hk env r env' E. unfold bind in E.
  destruct (m env) as [[e|a] env1] eqn:Em.
  - inversion E; subst. exact (Hm _ _ _ Em).
  - apply (frame_trans R R_frame _ env1); [exact (Hm _ _ _ Em)|].
    exact (Hk _ _ _ _ E).
Qed.

Lemma preserves_try {A : Type} (body : M A) (handler : Exn -> M A) :
  preserves R body -> (forall e, preserves R (handler e)) ->
  preserves R (try_except body handler).
Proof.
  intros Hb Hh env r env' E. unfold try_except in E.
  destruct (body env) as [[e|a] env1] eqn:Eb.
  - apply (frame_trans R R_frame _ env1); [exact (Hb _ _ _ Eb)|].
    exact (Hh _ _ _ _ E).
  - inversion E; subst. exact (Hb _ _ _ Eb).
Qed.

Lemma preserves_get_cache : preserves R get_cache.
Proof. intros env r env' E. inversion E; subst. apply (frame_refl R R_frame). Qed.

Lemma preserves_emit (ev : Event) :
  is_lookup ev = true -> preserves R (emit ev).
Proof.
  intros Hev env r env' E. inversion E; subst.
  apply (frame_lookup R R_frame); exact Hev.
Qed.

Lemma preserves_http_get {A : Type} (provider : Provider)
    (api : World -> Http A * World) :
  preserves R (http_get provider api).
Proof.
  intros env r env' E. unfold http_get in E. simpl in E.
  destruct (api (world env)) as [[e|status json] w];
    inversion E; subst; apply (frame_lookup R R_frame); reflexivity.
Qed.

Lemma preserves_inference (query : string) :
  preserves R
    (fun env =>
       match inference query (world env) with
       | (r, w) =>
           (r, {| world := w; cache := cache env; trace := trace env |})
       end).
Proof.
  intros env r env' E. destruct (inference query (world env)) as [r0 w].
  inversion E; subst. apply (frame_world R R_frame).
Qed.

Ltac frame_step :=
  repeat first
    [ apply preserves_ret
    | apply preserves_raise
    | apply preserves_lift
    | apply preserves_get_cache
    | apply preserves_http_get
    | apply preserves_inference
    | apply preserves_emit; reflexivity
    | apply preserves_try; [|intros ?]
    | apply preserves_bind; [|intros ?]
    | match goal with
      | |- preserves _ (if ?c then _ else _) => destruct c
      | |- preserves _ (match ?x with _ => _ end) => destruct x
      end ].

Lemma _fetch_duckduckgo_frame (query : string) :
  preserves R (_fetch_duckduckgo query).
Proof. unfold _fetch_duckduckgo. frame_step. Qed.

Lemma _fetch_wikipedia_frame (frames : nat) (query : string) :
  preserves R (_fetch_wikipedia frames query).
Proof.
  revert query. induction frames as [|frames IH]; intros query; simpl.
  - frame_step.
  - apply preserves_bind; [|intros ?; frame_step].
    apply preserves_try; [|intros ?; frame_step].
    apply preserves_bind; [apply preserves_http_get|]. intros response.
    destruct (fst response =? 200)%Z; [frame_step|].
    destruct (fst response =? 404)%Z; [|frame_step].
    apply preserves_bind; [apply preserves_http_get|]. intros search_res.
    destruct (fst search_res =? 200)%Z; [|frame_step].
    apply preserves_bind; [apply preserves_lift|]. intros search_data.
    destruct search_data as [|[top_title|] rest]; [frame_step| |frame_step].
    apply preserves_bind; [apply IH|]. intros result. frame_step.
Qed.

Lemma _fetch_from_web_apis_frame (query : string) :
  preserves R (_fetch_from_web_apis query).
Proof.
  unfold _fetch_from_web_apis.
  apply preserves_bind; [apply _fetch_duckduckgo_frame|]. intros r.
  destruct (Text.nonempty (answer r)); [apply preserves_ret|].
  apply preserves_bind; [apply _fetch_wikipedia_frame|]. intros r'.
  frame_step.
Qed.

Lemma ml_predict_frame (query : string) (features : Features) :
  preserves R (ml_predict query features).
Proof. unfold ml_predict, _handle_calculation. frame_step. Qed.

Lemma transformer_predict_frame (query : string) (features : Features) :
  preserves R (transformer_predict query features).
Proof. unfold transformer_predict. frame_step. Qed.

Hypothesis R_cache : CacheBlind R.

Lemma preserves_put_cache (key : string) (result : Prediction) :
  preserves R (put_cache key result).
Proof. intros env r env' E. inversion E; subst. apply R_cache. Qed.

Lemma local_search_frame (query query_norm : string) :
  preserves R (local_search query query_norm).
Proof.
  unfold local_search.
  repeat first [ apply preserves_put_cache | progress frame_step ].
Qed.

Lemma retrieval_predict_frame (query : string) (features : Features) :
  preserves R (retrieval_predict query features).
Proof.
  unfold retrieval_predict.
  apply preserves_bind; [apply preserves_get_cache|]. intros known.
  destruct (known !! _); [apply preserves_ret|].
  apply preserves_bind; [apply local_search_frame|]. intros [result|].
  - apply preserves_ret.
  - apply preserves_bind; [apply _fetch_from_web_apis_frame|]. intros r.
    repeat first [ apply preserves_put_cache | progress frame_step ].
Qed.

(** No engine records a call of [predict] or anything else that [R]
    can see. *)
Lemma strategies_frame (strategy_name : StrategyName) (query : string)
    (features : Features) :
  preserves R (strategies strategy_name query features).
Proof.
  destruct strategy_name; simpl.
  - apply preserves_ret.
  - apply retrieval_predict_frame.
  - apply ml_predict_frame.
  - apply transformer_predict_frame.
Qed.

End Frames.

Lemma same_cache_frame : Frame same_cache.
Proof. split; unfold same_cache; simpl; congruence. Qed.

Lemma predict_calls_app (l1 l2 : list Event) :
  predict_calls (l1 ++ l2) = (predict_calls l1 ++ predict_calls l2)%list.
Proof. unfold predict_calls. apply flat_map_app. Qed.

Lemma same_calls_frame : Frame same_calls.
Proof.
  split; unfold same_calls; simpl; try congruence.
  intros env ev w Hev. rewrite predict_calls_app.
  destruct ev; try discriminate; simpl; apply app_nil_r.
Qed.

Lemma same_calls_cache_blind : CacheBlind same_calls.
Proof. intros env c. reflexivity. Qed.

Lemma extends_frame : Frame extends.
Proof.
  split; unfold extends; simpl.
  - intros env. exists []. symmetry. apply app_nil_r.
  - intros e1 e2 e3 [l1 H1] [l2 H2]. exists (l1 ++ l2)%list.
    rewrite H2, H1. symmetry. apply app_assoc.
  - intros env ev w _. exists [ev]. reflexivity.
  - intros env w. exists []. symmetry. apply app_nil_r.
Qed.

Lemma extends_cache_blind : CacheBlind extends.
Proof. intros env c. exists []. simpl. symmetry. apply app_nil_r. Qed.

(** What one call of [predict] does to the trace. *)
Lemma predict_trace (strategy_name : StrategyName) (query : string)
    (features : Features) (env : Env) r (env' : Env) :
  predict strategy_name query features env = (r, env') ->
  predict_calls (trace env')
  = (predict_calls (trace env) ++ [strategy_name])%list
  /\ exists later, trace env' = (trace env ++ Predict strategy_name :: later)%list.
Proof.
  unfold predict, bind. simpl. intros E.
  pose proof (strategies_frame same_calls same_calls_frame
                same_calls_cache_blind strategy_name query features _ _ _ E)
    as Hcalls.
  pose proof (strategies_frame extends extends_frame
                extends_cache_blind strategy_name query features _ _ _ E)
    as [later Hlater].
  unfold same_calls in Hcalls. simpl in *. split.
  - rewrite Hcalls, predict_calls_app. reflexivity.
  - exists later. rewrite Hlater, <- app_assoc. reflexivity.
Qed.

Lemma predict_extends (strategy_name : StrategyName) (query : string)
    (features : Features) :
  preserves extends (predict strategy_name query features).
Proof.
  intros env r env' E. destruct (predict_trace _ _ _ _ _ _ E) as [_ [later H]].
  exists (Predict strategy_name :: later). exact H.
Qed.

(** *** The rule guard *)

Lemma rule_predict_confidence (query : string) (features : Features) :
  confidence (RuleEngine.predict query features)
  = if RuleEngine.matches query then 1.0%Q else 0.0%Q.
Proof.
  unfold RuleEngine.predict, RuleEngine.matches. cbv zeta.
  destruct (RuleEngine._is_invalid_role_query _) as [[|] correction];
    [reflexivity|].
  cbn [fst orb].
  match goal with
  | |- context [existsb ?f ?l] => destruct (existsb f l)
  end; [reflexivity|].
  cbn [orb].
  destruct (RuleEngine.first_static_rule _) as [[key ans]|]; reflexivity.
Qed.

Lemma predict_rule_based (query : string) (features : Features) (env : Env) :
  predict RuleBased query features env
  = (inr (RuleEngine.predict query features), recorded (Predict RuleBased) env).
Proof. reflexivity. Qed.

(** C4: [RuleEngine.predict] reports confidence 1.0 exactly when a rule
    matches (0.0 otherwise); every execution starts by calling it; and
    when it reports at least 0.9, [execute_strategy] returns its result
    under the name Rule-Based, the trace having gained that one call and
    nothing else. *)
Theorem rule_guard_runs_first_and_overrides
    (strategy_name : StrategyName) (query : string) (features : Features)
    (env : Env) :
  let rule := RuleEngine.predict query features in
  confidence rule = (if RuleEngine.matches query then 1.0%Q else 0.0%Q)
  /\ (exists outcome env' later,
        execute_strategy strategy_name query features env = (inr outcome, env')
        /\ trace env' = (trace env ++ Predict RuleBased :: later)%list)
  /\ ((0.9 <= confidence rule)%Q ->
      execute_strategy strategy_name query features env
      = (inr (Executed (answer rule) (confidence rule) (reason rule) RuleBased),
         recorded (Predict RuleBased) env)).
Proof.
  cbv zeta. split; [apply rule_predict_confidence|]. split.
  - destruct (execute_strategy_total strategy_name query features env)
      as (outcome & env' & E).
    exists outcome, env'.
    assert (Hext : extends (recorded (Predict RuleBased) env) env').
    { revert E. unfold execute_strategy. unfold bind at 1.
      rewrite predict_rule_based. cbv beta iota. intros E.
      match type of E with
      | ?m _ = _ => assert (Hk : preserves extends m)
      end.
      { destruct (Qle_bool _ _); [apply preserves_ret, extends_frame|].
        apply preserves_bind;
          [apply extends_frame | apply predict_extends |]. intros primary.
        cbv zeta.
        destruct (Qltb _ _); [|apply preserves_ret, extends_frame].
        destruct (_ || _); [apply preserves_ret, extends_frame|].
        apply preserves_bind;
          [apply extends_frame | apply predict_extends |]. intros fallback.
        destruct (Qltb _ _); apply preserves_ret, extends_frame. }
      exact (Hk _ _ _ E). }
    destruct Hext as [later Hlater]. exists later. split; [exact E|].
    rewrite Hlater. simpl. rewrite <- app_assoc. reflexivity.
  - intros Hconf. unfold execute_strategy, bind.
    rewrite predict_rule_based.
    apply Qle_bool_iff in Hconf. rewrite Hconf. reflexivity.
Qed.

(** *** The policy for low confidence *)

(** C2: when the rule guard does not fire and the primary strategy
    reports a confidence below 0.35, then (a) for a factual intent or a
    Transformer primary the execution ends there with the safe refusal at
    confidence 0.0, only the guard and the primary having been called,
    and (b) otherwise Transformer is called once more, the outcome
    carries the name Transformer, and it is the safe refusal with the
    hallucination rationale when the fallback reports less than 0.2 and
    the fallback's own triple otherwise. *)
Theorem low_confidence_policy
    (strategy_name : StrategyName) (query : string) (features : Features)
    (env env1 env2 : Env) (rule primary : Prediction) :
  predict RuleBased query features env = (inr rule, env1) ->
  (confidence rule < 0.9)%Q ->
  predict strategy_name query features env1 = (inr primary, env2) ->
  (confidence primary < 0.35)%Q ->
  let intent := get_or (f_intent features) "general" in
  (intent = "factual" \/ strategy_name = Transformer ->
   execute_strategy strategy_name query features env
   = (inr (Executed safe_refusal 0.0
             "Safe Failure: Confidence below threshold" strategy_name),
      env2)
   /\ predict_calls (trace env2)
      = (predict_calls (trace env) ++ [RuleBased; strategy_name])%list)
  /\ (intent <> "factual" -> strategy_name <> Transformer ->
      exists fallback env3,
        predict Transformer query features env2 = (inr fallback, env3)
        /\ predict_calls (trace env3)
           = (predict_calls (trace env)
              ++ [RuleBased; strategy_name; Transformer])%list
        /\ transformer_calls (trace env3) = S (transformer_calls (trace env))
        /\ ((confidence fallback < 0.2)%Q ->
            execute_strategy strategy_name query features env
            = (inr (Executed safe_refusal 0.0
                      ("Safe Failure: High Hallucination Risk ("
                       ++ reason fallback ++ ")")
                      Transformer),
               env3))
        /\ ((0.2 <= confidence fallback)%Q ->
            execute_strategy strategy_name query features env
            = (inr (Executed (answer fallback) (confidence fallback)
                      (reason fallback) Transformer),
               env3))).
Proof.
  intros Hrule Hguard Hprimary Hlow. cbv zeta.
  destruct (predict_trace _ _ _ _ _ _ Hrule) as [Hcalls1 _].
  destruct (predict_trace _ _ _ _ _ _ Hprimary) as [Hcalls2 _].
  assert (Hcalls : predict_calls (trace env2)
                   = (predict_calls (trace env)
                      ++ [RuleBased; strategy_name])%list).
  { rewrite Hcalls2, Hcalls1, <- app_assoc. reflexivity. }
  assert (Hq : Qle_bool 0.9 (confidence rule) = false).
  { destruct (Qle_bool 0.9 (confidence rule)) eqn:E; [|reflexivity].
    apply Qle_bool_iff in E. exfalso. exact (Qlt_not_le _ _ Hguard E). }
  assert (Hchecked :
            Qltb (confidence
                    (if Text.is_blank (answer primary)
                     then Triple "" 0.0
                            ("Empty response from "
                             ++ strategy_label strategy_name)
                     else primary))
                 Selector.confidence_threshold = true).
  { destruct (Text.is_blank (answer primary)); [reflexivity|].
    apply Qltb_lt. exact Hlow. }
  assert (Hexec :
            execute_strategy strategy_name query features env
            = (if String.eqb (get_or (f_intent features) "general") "factual"
                  || strategy_eqb strategy_name Transformer
               then ret (Executed safe_refusal 0.0
                           "Safe Failure: Confidence below threshold"
                           strategy_name)
               else
                 bind (predict Transformer query features)
                   (fun fallback =>
                      if Qltb (confidence fallback) 0.2
                      then ret (Executed safe_refusal 0.0
                                  ("Safe Failure: High Hallucination Risk ("
                                   ++ reason fallback ++ ")")
                                  Transformer)
                      else ret (Executed (answer fallback)
                                  (confidence fallback) (reason fallback)
                                  Transformer))) env2).
  { unfold execute_strategy. unfold bind at 1. rewrite Hrule, Hq.
    unfold bind at 1. rewrite Hprimary. cbv zeta. rewrite Hchecked.
    reflexivity. }
  split.
  - intros Hpolicy. split; [|exact Hcalls].
    rewrite Hexec.
    assert (Hb : String.eqb (get_or (f_intent features) "general") "factual"
                 || strategy_eqb strategy_name Transformer = true).
    { destruct Hpolicy as [-> | ->]; [reflexivity|].
      apply orb_true_r. }
    rewrite Hb. reflexivity.
  - intros Hintent Hname.
    assert (Hb : String.eqb (get_or (f_intent features) "general") "factual"
                 || strategy_eqb strategy_name Transformer = false).
    { apply orb_false_iff. split.
      - apply String.eqb_neq. exact Hintent.
      - apply strategy_eqb_neq. exact Hname. }
    destruct (predict_total Transformer query features env2)
      as (fallback & env3 & Hfb).
    destruct (predict_trace _ _ _ _ _ _ Hfb) as [Hcalls3 _].
    exists fallback, env3. split; [exact Hfb|].
    assert (Hcalls' : predict_calls (trace env3)
                      = (predict_calls (trace env)
                         ++ [RuleBased; strategy_name; Transformer])%list).
    { rewrite Hcalls3, Hcalls, <- app_assoc. reflexivity. }
    split; [exact Hcalls'|]. split.
    + unfold transformer_calls. rewrite Hcalls'.
      rewrite List.filter_app, List.length_app.
      destruct strategy_name; try congruence; simpl; lia.
    + rewrite Hexec, Hb. unfold bind. rewrite Hfb. split; intros Hfbc.
      * apply Qltb_lt in Hfbc. rewrite Hfbc. reflexivity.
      * apply Qltb_ge in Hfbc. rewrite Hfbc. reflexivity.
Qed.

(** *** The retrieval cache *)

Lemma retrieval_cache_hit (query : string) (features : Features) (env : Env)
    (result : Prediction) :
  cache env !! Text.strip (Text.lower query) = Some result ->
  retrieval_predict query features env = (inr result, env).
Proof.
  intros Hhit. unfold retrieval_predict, bind, get_cache. cbv zeta.
  rewrite Hhit. reflexivity.
Qed.

(** The local search either finds nothing and leaves the cache alone,
    or caches what it returns, whose confidence exceeds 0.4. *)
Lemma local_search_spec (query query_norm : string) (env env' : Env) r :
  local_search query query_norm env = (r, env') ->
  (r = inr None /\ cache env' = cache env)
  \/ (exists result,
        r = inr (Some result)
        /\ cache env' = <[query_norm := result]> (cache env)
        /\ (0.4 < confidence result)%Q).
Proof.
  unfold local_search.
  destruct (negb (Nat.eqb (List.length documents) 0) && vectorizer).
  - unfold try_except, bind, emit, lift, put_cache, ret, raise.
    destruct (vector_search query) as [e|[idx score]]; simpl.
    + intros E. inversion E; subst. left. split; reflexivity.
    + destruct (Qltb 0.4 score) eqn:Hscore.
      * destruct (nth_error documents idx) as [document|]; simpl;
          intros E; inversion E; subst; simpl.
        -- right. eexists. split; [reflexivity|]. split; [reflexivity|].
           simpl. apply Qltb_lt. exact Hscore.
        -- left. split; reflexivity.
      * intros E. inversion E; subst. left. split; reflexivity.
  - intros E. inversion E; subst. left. split; reflexivity.
Qed.

(** What one resolution does: a hit leaves everything as it is; a miss
    returns a result and caches it exactly when its confidence exceeds
    0.1. *)
Lemma retrieval_predict_spec (query : string) (features : Features)
    (env env1 : Env) (result : Prediction) :
  retrieval_predict query features env = (inr result, env1) ->
  let query_norm := Text.strip (Text.lower query) in
  (cache env !! query_norm = Some result /\ env1 = env)
  \/ (cache env !! query_norm = None
      /\ (0.1 < confidence result)%Q
      /\ cache env1 = <[query_norm := result]> (cache env))
  \/ (cache env !! query_norm = None
      /\ (confidence result <= 0.1)%Q
      /\ cache env1 = cache env).
Proof.
  cbv zeta. unfold retrieval_predict, bind at 1, get_cache. cbv zeta.
  destruct (cache env !! Text.strip (Text.lower query)) as [hit|] eqn:Hlook.
  - intros E. inversion E; subst. left. split; reflexivity.
  - unfold bind at 1.
    destruct (local_search query (Text.strip (Text.lower query)) env)
      as [[e|[found|]] env0] eqn:Hlocal.
    + destruct (local_search_total query (Text.strip (Text.lower query)) env)
        as (a & env' & Hl).
      rewrite Hl in Hlocal. discriminate.
    + intros E. inversion E; subst.
      destruct (local_search_spec _ _ _ _ _ Hlocal)
        as [[Habs _] | (res & Hres & Hcache & Hconf)]; [discriminate|].
      inversion Hres; subst. right. left. split; [reflexivity|].
      split; [|exact Hcache].
      apply Qlt_trans with (y := 0.4%Q); [reflexivity | exact Hconf].
    + destruct (local_search_spec _ _ _ _ _ Hlocal)
        as [[_ Hcache0] | (res & Hres & _)]; [|discriminate].
      unfold bind at 1.
      destruct (_fetch_from_web_apis (Text.strip (Text.lower query)) env0)
        as [[e|web] env2] eqn:Hweb.
      * destruct (_fetch_from_web_apis_total (Text.strip (Text.lower query)) env0)
          as (a & env' & Hw).
        rewrite Hw in Hweb. discriminate.
      * pose proof (_fetch_from_web_apis_frame same_cache same_cache_frame
                      _ _ _ _ Hweb) as Hcache2.
        unfold same_cache in Hcache2.
        unfold bind, put_cache, ret.
        destruct (Qltb 0.1 (confidence web)) eqn:Hconf;
          intros E; inversion E; subst; simpl; right.
        -- left. split; [reflexivity|]. split.
           ++ apply Qltb_lt. exact Hconf.
           ++ rewrite Hcache2, Hcache0. reflexivity.
        -- right. split; [reflexivity|]. split.
           ++ apply Qltb_ge. exact Hconf.
           ++ rewrite Hcache2, Hcache0. reflexivity.
Qed.

(** C7 (amended): if a resolution returns a result whose confidence
    exceeds 0.1, resolving any query with the same normalised text
    again returns the same triple and leaves the environment as it is
    (so no similarity search and no provider request is made); and an
    entry is in the cache after a resolution only if it was there before
    or it is the returned result, stored under the normalised query,
    with confidence above 0.1. *)
Theorem cached_result_is_returned_again
    (query : string) (features : Features) (env env1 : Env)
    (result : Prediction) :
  retrieval_predict query features env = (inr result, env1) ->
  ((0.1 < confidence result)%Q ->
   forall (query' : string) (features' : Features),
     Text.strip (Text.lower query') = Text.strip (Text.lower query) ->
     retrieval_predict query' features' env1 = (inr result, env1))
  /\ (forall (key : string) (entry : Prediction),
        cache env1 !! key = Some entry ->
        cache env !! key = Some entry
        \/ (key = Text.strip (Text.lower query)
            /\ entry = result /\ (0.1 < confidence result)%Q)).
Proof.
  intros Hrun.
  destruct (retrieval_predict_spec _ _ _ _ _ Hrun)
    as [[Hhit ->] | [(Hmiss & Hconf & Hcache) | (Hmiss & Hconf & Hcache)]].
  - split.
    + intros _ query' features' Hnorm. apply retrieval_cache_hit.
      rewrite Hnorm. exact Hhit.
    + intros key entry Hentry. left. exact Hentry.
  - split.
    + intros _ query' features' Hnorm. apply retrieval_cache_hit.
      rewrite Hnorm, Hcache. apply lookup_insert_eq.
    + intros key entry. rewrite Hcache.
      destruct (decide (Text.strip (Text.lower query) = key)) as [<-|Hne].
      * rewrite lookup_insert_eq. intros E. inversion E; subst. right. auto.
      * rewrite lookup_insert_ne by exact Hne. auto.
  - split.
    + intros Habs. exfalso. exact (Qlt_not_le _ _ Habs Hconf).
    + intros key entry. rewrite Hcache. auto.
Qed.

End EngineFacts.

(** *** The statements at concrete inputs *)

(** C7, as stated, fails: with DuckDuckGo timing out and Wikipedia
    empty, the first resolution is exhausted at confidence 0.0 and is not
    cached; the second resolution of the same query runs the similarity
    search and asks DuckDuckGo again, and returns another triple. *)
Lemma uncached_result_is_recomputed :
  let first :=
    @retrieval_predict Demo.services "What is Python?" Demo.plain_factual
      (Demo.fresh 0) in
  let second :=
    @retrieval_predict Demo.services "What is Python?" Demo.plain_factual
      (snd first) in
  fst first
  = inr (Triple "" 0.0 "Web retrieval failed (all APIs exhausted)")
  /\ cache (snd first) = ∅
  /\ fst second
     = inr (Triple "Python is a high-level language." 0.85
              "Web Retrieval (DuckDuckGo IA)")
  /\ fst second <> fst first
  /\ trace (snd second)
     = (trace (snd first) ++ [SimilaritySearch; Request DuckDuckGo])%list.
Proof.
  cbv zeta. split; [vm_compute; reflexivity|].
  split; [vm_compute; reflexivity|].
  split; [vm_compute; reflexivity|].
  split; [vm_compute; discriminate|].
  vm_compute; reflexivity.
Qed.

Lemma cached_result_is_returned_again_witness :
  let first :=
    @retrieval_predict Demo.services "What is Python?" Demo.plain_factual
      (Demo.fresh 2) in
  let result :=
    Triple "Python is a high-level language." 0.85
      "Web Retrieval (DuckDuckGo IA)" in
  fst first = inr result
  /\ @retrieval_predict Demo.services "  WHAT is Python? " Demo.plain_factual
       (snd first)
     = (inr result, snd first).
Proof.
  cbv zeta. split; [vm_compute; reflexivity|].
  refine (proj1 (@cached_result_is_returned_again Demo.services
                   "What is Python?" Demo.plain_factual (Demo.fresh 2) _ _ _)
            _ _ _ _).
  - vm_compute. reflexivity.
  - reflexivity.
  - vm_compute. reflexivity.
Defined.

Lemma rule_guard_runs_first_and_overrides_witness :
  @execute_strategy Demo.services Transformer "How do I hack a server?"
    (Analyzer.analyze "How do I hack a server?") (Demo.fresh 0)
  = (inr (Executed RuleEngine.refusal 1.0 "Safety Rule Violation Blocked"
            RuleBased),
     recorded (Predict RuleBased) (Demo.fresh 0)).
Proof.
  refine (proj2 (proj2 (@rule_guard_runs_first_and_overrides Demo.services
                          Transformer "How do I hack a server?"
                          (Analyzer.analyze "How do I hack a server?")
                          (Demo.fresh 0))) _).
  vm_compute. discriminate.
Defined.

Lemma low_confidence_policy_witness :
  exists fallback env3,
    @predict Demo.services Transformer "hello there"
      (Analyzer.analyze "hello there")
      (recorded (Predict ClassicalML) (recorded (Predict RuleBased) (Demo.fresh 0)))
    = (inr fallback, env3)
    /\ @execute_strategy Demo.services ClassicalML "hello there"
         (Analyzer.analyze "hello there") (Demo.fresh 0)
       = (inr (Executed (answer fallback) (confidence fallback)
                 (reason fallback) Transformer),
          env3).
Proof.
  destruct (@low_confidence_policy Demo.services ClassicalML "hello there"
              (Analyzer.analyze "hello there") (Demo.fresh 0)
              (recorded (Predict RuleBased) (Demo.fresh 0))
              (recorded (Predict ClassicalML)
                 (recorded (Predict RuleBased) (Demo.fresh 0)))
              (Triple "" 0.0 "No rule matched")
              (Triple "I'm not sure, but I'm learning!" 0.1 "Unknown"))
    as [_ Hfallback].
  - vm_compute. reflexivity.
  - reflexivity.
  - vm_compute. reflexivity.
  - reflexivity.
  - destruct Hfallback as (fallback & env3 & Hfb & _ & _ & _ & Hkeep).
    + vm_compute. discriminate.
    + discriminate.
    + exists fallback, env3. split; [exact Hfb|].
      apply Hkeep.
      assert (E : fallback
                  = TransformerEngine._simulate_response "hello there"
                      (Analyzer.analyze "hello there")).
      { vm_compute in Hfb. inversion Hfb. vm_compute. reflexivity. }
      rewrite E. vm_compute. discriminate.
Defined.

(** * Further properties of the code *)

(** ** Text *)

Section TextFacts.

Import Text.

Lemma lower_char_idem (c : ascii) : lower_char (lower_char c) = lower_char c.
Proof. destruct c as [[] [] [] [] [] [] [] []]; reflexivity. Qed.

Lemma is_space_lower_char (c : ascii) : is_space (lower_char c) = is_space c.
Proof. destruct c as [[] [] [] [] [] [] [] []]; reflexivity. Qed.

Lemma lower_idem (s : string) : lower (lower s) = lower s.
Proof.
  induction s as [|c s IH]; simpl; [reflexivity|].
  rewrite lower_char_idem, IH. reflexivity.
Qed.

Lemma lower_as_map (s : string) :
  lower s = string_of_list_ascii (map lower_char (list_ascii_of_string s)).
Proof. induction s as [|c s IH]; simpl; [reflexivity|]. rewrite IH. reflexivity. Qed.

Lemma lstrip_as_drop_while (s : string) :
  lstrip s = string_of_list_ascii (drop_while is_space (list_ascii_of_string s)).
Proof.
  induction s as [|c s IH]; simpl; [reflexivity|].
  destruct (is_space c); [exact IH|].
  simpl. rewrite string_of_list_ascii_of_string. reflexivity.
Qed.

Lemma strip_as_drop_while (s : string) :
  strip s
  = string_of_list_ascii
      (rev (drop_while is_space
              (rev (drop_while is_space (list_ascii_of_string s))))).
Proof.
  unfold strip, rev_string.
  rewrite !lstrip_as_drop_while, !list_ascii_of_string_of_list_ascii.
  reflexivity.
Qed.

Lemma drop_while_idem (p : ascii -> bool) (l : list ascii) :
  drop_while p (drop_while p l) = drop_while p l.
Proof.
  induction l as [|c l IH]; simpl; [reflexivity|].
  destruct (p c) eqn:E; [exact IH|]. simpl. rewrite E. reflexivity.
Qed.

Lemma drop_while_snoc (p : ascii -> bool) (l : list ascii) (c : ascii) :
  p c = false -> drop_while p (l ++ [c]) = (drop_while p l ++ [c])%list.
Proof.
  intros Hc. induction l as [|d l IH]; simpl.
  - rewrite Hc. reflexivity.
  - destruct (p d); [exact IH | reflexivity].
Qed.

Lemma drop_while_map (p : ascii -> bool) (f : ascii -> ascii) (l : list ascii) :
  (forall c, p (f c) = p c) ->
  drop_while p (map f l) = map f (drop_while p l).
Proof.
  intros Hf. induction l as [|c l IH]; simpl; [reflexivity|].
  rewrite Hf. destruct (p c); [exact IH | reflexivity].
Qed.

(** Dropping trailing characters of a list that starts with a character
    outside [p] leaves that first character in place. *)
Lemma drop_while_rev_head (p : ascii -> bool) (c : ascii) (l : list ascii) :
  p c = false ->
  exists l', rev (drop_while p (rev (c :: l))) = c :: l'.
Proof.
  intros Hc. simpl. rewrite drop_while_snoc by exact Hc.
  rewrite rev_app_distr. simpl. eexists. reflexivity.
Qed.

Lemma drop_while_head (p : ascii -> bool) (l : list ascii) :
  drop_while p l = [] \/ exists c l', drop_while p l = c :: l' /\ p c = false.
Proof.
  induction l as [|c l IH]; simpl; [left; reflexivity|].
  destruct (p c) eqn:E; [exact IH|]. right. exists c, l. auto.
Qed.

Lemma strip_idem (s : string) : strip (strip s) = strip s.
Proof.
  rewrite (strip_as_drop_while (strip s)), (strip_as_drop_while s).
  rewrite list_ascii_of_string_of_list_ascii. f_equal.
  destruct (drop_while_head is_space (list_ascii_of_string s))
    as [E | (c & l' & E & Hc)]; rewrite E.
  - reflexivity.
  - destruct (drop_while_rev_head is_space c l' Hc) as [t Ht].
    rewrite Ht. simpl drop_while at 2. rewrite Hc. rewrite <- Ht.
    rewrite rev_involutive, drop_while_idem. reflexivity.
Qed.

Lemma strip_lower (s : string) : strip (lower s) = lower (strip s).
Proof.
  rewrite (strip_as_drop_while (lower s)), (lower_as_map (strip s)).
  rewrite (strip_as_drop_while s), lower_as_map.
  rewrite !list_ascii_of_string_of_list_ascii. f_equal.
  rewrite drop_while_map by apply is_space_lower_char.
  rewrite <- map_rev, drop_while_map by apply is_space_lower_char.
  rewrite map_rev. reflexivity.
Qed.

(** Normalising a query twice is normalising it once. *)
Lemma normalize_idem (s : string) : normalize (normalize s) = normalize s.
Proof.
  unfold normalize. rewrite (strip_lower s), lower_idem.
  rewrite <- strip_lower, strip_idem. reflexivity.
Qed.

Lemma lower_normalize (s : string) : lower (normalize s) = normalize s.
Proof. unfold normalize. rewrite <- strip_lower, lower_idem. reflexivity. Qed.

End TextFacts.

Section TextFacts2.

Import Text.

Lemma is_blank_head (c : ascii) (s : string) :
  is_space c = false -> is_blank (String c s) = false.
Proof.
  intros Hc. unfold is_blank. rewrite strip_as_drop_while.
  change (list_ascii_of_string (String c s)) with (c :: list_ascii_of_string s).
  simpl drop_while at 2. rewrite Hc.
  destruct (drop_while_rev_head is_space c (list_ascii_of_string s) Hc)
    as [t Ht].
  rewrite Ht. reflexivity.
Qed.

Lemma search_dotstar_contains (a b s : string) :
  search_dotstar a b s = true -> contains a s = true.
Proof.
  induction s as [|c s IH]; simpl; intros H.
  - rewrite orb_false_r in *. apply andb_true_iff in H. apply H.
  - apply orb_true_iff in H. apply orb_true_iff. destruct H as [H|H].
    + left. apply andb_true_iff in H. apply H.
    + right. apply IH, H.
Qed.

End TextFacts2.

(** ** The analyzer *)

(** X1: analysing the normalised text of a query gives the same features
    as analysing the query: the ['query'] feature is a fixed point. *)
Theorem analyze_of_normalized_query (query : string) :
  f_query (Analyzer.analyze query) = Some (Text.normalize query)
  /\ Analyzer.analyze (Text.normalize query) = Analyzer.analyze query.
Proof.
  split; [reflexivity|].
  unfold Analyzer.analyze.
  change (Text.strip (Text.lower (Text.normalize query)))
    with (Text.normalize (Text.normalize query)).
  rewrite normalize_idem. reflexivity.
Qed.

Lemma flagged_intent (query : string) :
  truthy (f_is_rule_violation (Analyzer.analyze query)) = true ->
  f_intent (Analyzer.analyze query) = Some "rule_violation".
Proof.
  unfold Analyzer.analyze. simpl.
  set (q := Text.strip (Text.lower query)).
  intros Hflag. unfold Analyzer._detect_intent.
  assert (Hkw : Text.any_in Analyzer.rule_keywords q = true).
  { unfold Text.any_in, Analyzer.rule_keywords. simpl.
    apply orb_true_iff in Hflag. destruct Hflag as [Hflag|Hflag].
    - apply orb_true_iff in Hflag. destruct Hflag as [H|H]; rewrite H;
        rewrite ?orb_true_r; reflexivity.
    - rewrite (search_dotstar_contains "predict" "mark" q Hflag).
      reflexivity. }
  rewrite Hkw. reflexivity.
Qed.

(** X2: whenever the analyzer sets the rule-violation flag it also reports
    the intent rule_violation; the intent is never 'reason' and always one
    of the five the analyzer knows; the complexity is 'high' or 'low'. *)
Theorem analyze_flag_and_intent (query : string) :
  let features := Analyzer.analyze query in
  (truthy (f_is_rule_violation features) = true ->
   f_intent features = Some "rule_violation")
  /\ (exists intent,
        f_intent features = Some intent
        /\ In intent ["rule_violation"; "calculation"; "factual";
                      "explanation"; "general"])
  /\ (f_complexity features = Some "high" \/ f_complexity features = Some "low").
Proof.
  cbv zeta. split; [apply flagged_intent|].
  unfold Analyzer.analyze. simpl.
  set (q := Text.strip (Text.lower query)).
  split.
  - unfold Analyzer._detect_intent.
    destruct (Text.any_in Analyzer.rule_keywords q);
      [eexists; split; [reflexivity|simpl; auto]|].
    destruct (Text.any_in Analyzer.calculation_keywords q);
      [eexists; split; [reflexivity|simpl; auto]|].
    destruct (_ || _); [eexists; split; [reflexivity|simpl; auto 6]|].
    destruct (Text.any_in Analyzer.explanation_keywords q);
      eexists; (split; [reflexivity|simpl; auto 6]).
  - destruct (_ || _); auto.
Qed.

Lemma analyze_flag_and_intent_witness :
  f_intent (Analyzer.analyze "how to CHEAT in an exam")
  = Some "rule_violation".
Proof.
  apply (proj1 (analyze_flag_and_intent "how to CHEAT in an exam")).
  reflexivity.
Defined.

(** X3: for features produced by the analyzer, a factual intent is always
    routed to Retrieval, whatever the weights: the flag that could
    pre-empt it is never set together with that intent. *)
Theorem analyzed_factual_is_retrieval (self : Selector.t) (query : string) :
  f_intent (Analyzer.analyze query) = Some "factual" ->
  Selector.select_strategy self (Analyzer.analyze query) = Retrieval.
Proof.
  intros Hintent. unfold Selector.select_strategy.
  destruct (truthy (f_is_rule_violation (Analyzer.analyze query))) eqn:E.
  - pose proof (flagged_intent query E) as H.
    rewrite Hintent in H. discriminate.
  - rewrite Hintent. reflexivity.
Qed.

Lemma analyzed_factual_is_retrieval_witness :
  Selector.select_strategy Selector.init (Analyzer.analyze "What is Python?")
  = Retrieval.
Proof.
  apply (analyzed_factual_is_retrieval Selector.init "What is Python?").
  reflexivity.
Defined.

(** ** Scoring and selection *)

Section SelectionFacts.

Import Selector.
Open Scope Q_scope.

(** [max_by] returns a key of maximal score, the first one in key
    order. *)
Lemma max_by_spec (score : StrategyName -> Q) :
  (forall k, score k <= score (max_by score))
  /\ (forall k, (rank k < rank (max_by score))%nat ->
                score k < score (max_by score)).
Proof.
  unfold max_by. simpl.
  destruct (Qltb (score RuleBased) (score Retrieval)) eqn:E1;
    [apply Qltb_lt in E1 | apply Qltb_ge in E1];
    match goal with
    | |- context [Qltb (score ?b) (score ClassicalML)] =>
        destruct (Qltb (score b) (score ClassicalML)) eqn:E2;
        [apply Qltb_lt in E2 | apply Qltb_ge in E2]
    end;
    match goal with
    | |- context [Qltb (score ?b) (score Transformer)] =>
        destruct (Qltb (score b) (score Transformer)) eqn:E3;
        [apply Qltb_lt in E3 | apply Qltb_ge in E3]
    end;
    (split; [intros k; destruct k; lra
            | intros k Hk; destruct k; simpl in Hk; try lia; lra]).
Qed.

(** X4: when no hard pre-check applies, [select_strategy] returns a
    strategy of maximal utility, and every strategy registered before it
    has a strictly smaller utility (first maximum wins). *)
Theorem select_strategy_is_first_maximum (self : t) (features : Features) :
  truthy (f_is_rule_violation features) = false ->
  get_or (f_intent features) "general" <> "factual" ->
  Text.any_in factual_indicators
    (Text.lower (get_or (f_query features) "")) = false ->
  let chosen := select_strategy self features in
  forall k,
    final_utility self features k <= final_utility self features chosen
    /\ ((rank k < rank chosen)%nat ->
        final_utility self features k < final_utility self features chosen).
Proof.
  intros Hflag Hintent Hkw. cbv zeta. intros k.
  unfold select_strategy. rewrite Hflag, Hkw.
  apply String.eqb_neq in Hintent. rewrite Hintent. cbn [orb].
  destruct (max_by_spec (final_utility self features)) as [Hmax Hfirst].
  split; [apply Hmax | apply Hfirst].
Qed.

(** X5: [_select_by_weights] returns a strategy of maximal weight, the
    first one in registration order among equals. *)
Theorem select_by_weights_is_first_maximum (self : t) (k : StrategyName) :
  strategy_weights self k <= strategy_weights self (_select_by_weights self)
  /\ ((rank k < rank (_select_by_weights self))%nat ->
      strategy_weights self k
      < strategy_weights self (_select_by_weights self)).
Proof.
  unfold _select_by_weights.
  destruct (max_by_spec (strategy_weights self)) as [Hmax Hfirst].
  split; [apply Hmax | apply Hfirst].
Qed.

(** X6: on a fresh selector the route depends on the intent alone:
    whatever the query length, complexity and number flag, an unflagged
    record without factual indicator goes to Retrieval if factual, to
    Rule-Based if rule_violation, to Classical ML if calculation, to
    Transformer if explanation, reason or general, and to Classical ML for
    any other intent. *)
Theorem fresh_selector_routes_by_intent (features : Features) :
  truthy (f_is_rule_violation features) = false ->
  Text.any_in factual_indicators
    (Text.lower (get_or (f_query features) "")) = false ->
  let intent := get_or (f_intent features) "general" in
  select_strategy init features
  = if String.eqb intent "factual" then Retrieval else fresh_route intent.
Proof.
  intros Hflag Hkw. cbv zeta. unfold select_strategy. rewrite Hflag, Hkw.
  set (intent := get_or (f_intent features) "general").
  destruct (String.eqb intent "factual") eqn:Hfact; [reflexivity|].
  cbn [orb]. unfold max_by, max_from, final_utility, context_bonus,
    base_score, fresh_route, qualitative, CAPABILITY_MATRIX.
  fold intent. rewrite Hfact.
  set (complexity := get_or (f_complexity features) "low").
  destruct (truthy (f_has_number features));
    destruct (String.eqb complexity "high");
    destruct (String.eqb complexity "low");
    destruct (String.eqb intent "rule_violation");
    try reflexivity;
    destruct (String.eqb intent "calculation");
    try reflexivity;
    destruct (String.eqb intent "explanation");
    try reflexivity;
    destruct (String.eqb intent "reason");
    try reflexivity;
    destruct (String.eqb intent "general");
    reflexivity.
Qed.

End SelectionFacts.

(** ** Counters and learned weights *)

Section CounterFacts.

Import Selector.
Open Scope Q_scope.

Lemma strategy_eqb_sym (a b : StrategyName) :
  strategy_eqb a b = strategy_eqb b a.
Proof. destruct a, b; reflexivity. Qed.

Lemma update_counters (strategy : StrategyName) (ok : bool) (self self' : t)
    (k : StrategyName) :
  update_from_feedback strategy ok self = Some self' ->
  strategy_success self' k
  = if strategy_eqb strategy k
    then {| success := if ok then (success (strategy_success self strategy) + 1)%Z
                       else success (strategy_success self strategy);
            total := (total (strategy_success self strategy) + 1)%Z |}
    else strategy_success self k.
Proof.
  unfold update_from_feedback.
  destruct (Qeq_bool _ 0); [discriminate|].
  intros E. inversion E; subst. reflexivity.
Qed.

Lemma count_calls_cons (k strategy : StrategyName) (ok : bool)
    (calls : list (StrategyName * bool)) :
  count_calls k ((strategy, ok) :: calls)
  = ((if strategy_eqb strategy k then 1 else 0) + count_calls k calls)%Z.
Proof.
  unfold count_calls. simpl. rewrite (strategy_eqb_sym k strategy).
  destruct (strategy_eqb strategy k); simpl List.length; lia.
Qed.

Lemma count_successes_cons (k strategy : StrategyName) (ok : bool)
    (calls : list (StrategyName * bool)) :
  count_successes k ((strategy, ok) :: calls)
  = ((if strategy_eqb strategy k && ok then 1 else 0)
     + count_successes k calls)%Z.
Proof.
  unfold count_successes. simpl. rewrite (strategy_eqb_sym k strategy).
  destruct (strategy_eqb strategy k && ok); simpl List.length; lia.
Qed.

Lemma count_bounds (k : StrategyName) (calls : list (StrategyName * bool)) :
  (0 <= count_successes k calls <= count_calls k calls)%Z.
Proof.
  induction calls as [|[strategy ok] calls IH].
  - unfold count_successes, count_calls. simpl. lia.
  - rewrite count_calls_cons, count_successes_cons.
    destruct (strategy_eqb strategy k), ok; simpl; lia.
Qed.

(** What a feedback sequence adds to the counters. *)
Lemma run_feedback_counters (calls : list (StrategyName * bool))
    (self self' : t) (k : StrategyName) :
  run_feedback calls self = Some self' ->
  total (strategy_success self' k)
  = (total (strategy_success self k) + count_calls k calls)%Z
  /\ success (strategy_success self' k)
     = (success (strategy_success self k) + count_successes k calls)%Z.
Proof.
  revert self. induction calls as [|[strategy ok] calls IH]; intros self.
  - simpl. intros E. inversion E; subst.
    unfold count_calls, count_successes. simpl. lia.
  - simpl. destruct (update_from_feedback strategy ok self) as [self1|] eqn:Hup;
      [|discriminate].
    intros Hrun. destruct (IH _ Hrun) as [Ht Hs].
    rewrite Ht, Hs, (update_counters _ _ _ _ k Hup).
    rewrite count_calls_cons, count_successes_cons.
    destruct (strategy_eqb strategy k) eqn:E.
    + apply strategy_eqb_eq in E. subst k. destruct ok; simpl; lia.
    + simpl. lia.
Qed.

(** X7: after any feedback sequence on a fresh selector, the counters of
    each strategy are the number of calls naming it and the number of
    those that reported success; in particular success never exceeds
    total. *)
Theorem counters_count_the_feedback
    (calls : list (StrategyName * bool)) (k : StrategyName) :
  exists self,
    run_feedback calls init = Some self
    /\ total (strategy_success self k) = count_calls k calls
    /\ success (strategy_success self k) = count_successes k calls
    /\ (0 <= success (strategy_success self k)
        <= total (strategy_success self k))%Z.
Proof.
  destruct (run_feedback_positive calls init init_positive) as (self & Hrun & _).
  exists self. split; [exact Hrun|].
  destruct (run_feedback_counters calls init self k Hrun) as [Ht Hs].
  simpl in Ht, Hs. rewrite Ht, Hs.
  split; [reflexivity|]. split; [reflexivity|]. apply count_bounds.
Qed.

(** X8: after any feedback sequence on a fresh selector, the success rate
    of every strategy is defined and lies between 0 and 1. *)
Theorem success_rate_is_a_fraction
    (calls : list (StrategyName * bool)) (k : StrategyName) :
  exists self rate,
    run_feedback calls init = Some self
    /\ _get_success_rate self k = Some rate
    /\ 0 <= rate <= 1.
Proof.
  destruct (run_feedback_positive calls init init_positive) as (self & Hrun & _).
  destruct (run_feedback_counters calls init self k Hrun) as [Ht Hs].
  simpl in Ht, Hs. pose proof (count_bounds k calls) as Hb.
  exists self. unfold _get_success_rate.
  destruct (total (strategy_success self k) =? 0)%Z eqn:Hz.
  - exists 0.5. split; [exact Hrun|]. split; [reflexivity|].
    split; discriminate.
  - apply Z.eqb_neq in Hz. unfold py_truediv.
    destruct (Qeq_bool (inject_Z (total (strategy_success self k))) 0) eqn:Hq.
    + apply Qeq_bool_eq in Hq. exfalso. apply Hz.
      unfold Qeq in Hq. simpl in Hq. lia.
    + eexists. split; [exact Hrun|]. split; [reflexivity|].
      rewrite Qred_correct.
      assert (Hpos : 0 < inject_Z (total (strategy_success self k))).
      { change 0 with (inject_Z 0). rewrite <- Zlt_Qlt. lia. }
      split.
      * apply Qle_shift_div_l; [exact Hpos|]. rewrite Qmult_0_l.
        change 0 with (inject_Z 0). rewrite <- Zle_Qle. lia.
      * apply Qle_shift_div_r; [exact Hpos|]. rewrite Qmult_1_l.
        rewrite <- Zle_Qle. lia.
Qed.













End CounterFacts.

(** ** The executor as a state machine *)

Section ExecutorFacts.

Context {services : Services}.

(** The ways an execution can end, with the environments it reaches. *)
Lemma execute_strategy_cases (strategy_name : StrategyName) (query : string)
    (features : Features) (env env' : Env) (out : Outcome) :
  execute_strategy strategy_name query features env = (inr out, env') ->
  let rule := RuleEngine.predict query features in
  let env1 := recorded (Predict RuleBased) env in
  let intent := get_or (f_intent features) "general" in
  ((0.9 <= confidence rule)%Q
   /\ out = Executed (answer rule) (confidence rule) (reason rule) RuleBased
   /\ env' = env1)
  \/ ((confidence rule < 0.9)%Q
      /\ exists primary env2,
           predict strategy_name query features env1 = (inr primary, env2)
           /\ ((Text.is_blank (answer primary) = false
                /\ (0.35 <= confidence primary)%Q
                /\ out = Executed (answer primary) (confidence primary)
                           (reason primary) strategy_name
                /\ env' = env2)
               \/ ((Text.is_blank (answer primary) = true
                    \/ (confidence primary < 0.35)%Q)
                   /\ (((intent = "factual" \/ strategy_name = Transformer)
                        /\ out = Executed safe_refusal 0.0
                                   "Safe Failure: Confidence below threshold"
                                   strategy_name
                        /\ env' = env2)
                       \/ (intent <> "factual"
                           /\ strategy_name <> Transformer
                           /\ exists fallback,
                                predict Transformer query features env2
                                = (inr fallback, env')
                                /\ (((confidence fallback < 0.2)%Q
                                     /\ out = Executed safe_refusal 0.0
                                                ("Safe Failure: High Hallucination Risk ("
                                                 ++ reason fallback ++ ")")
                                                Transformer)
                                    \/ ((0.2 <= confidence fallback)%Q
                                        /\ out = Executed (answer fallback)
                                                   (confidence fallback)
                                                   (reason fallback)
                                                   Transformer))))))).
Proof.
  cbv zeta. unfold execute_strategy. unfold bind at 1.
  rewrite predict_rule_based. cbv beta iota.
  destruct (Qle_bool 0.9 (confidence (RuleEngine.predict query features)))
    eqn:Hguard.
  - intros E. inversion E; subst. left.
    split; [apply Qle_bool_iff; exact Hguard|]. split; reflexivity.
  - intros H. right. split.
    { apply Qnot_le_lt. intros Hle. apply Qle_bool_iff in Hle. congruence. }
    unfold bind at 1 in H.
    destruct (predict strategy_name query features
                (recorded (Predict RuleBased) env))
      as [[e|primary] env2] eqn:Hprimary; [discriminate|].
    exists primary, env2. split; [reflexivity|]. revert H. cbv zeta.
    destruct (Text.is_blank (answer primary)) eqn:Hblank.
    + (* blank answer: confidence 0.0 *)
      change (Qltb (confidence
                      (Triple "" 0.0
                         ("Empty response from "
                          ++ strategy_label strategy_name)))
                Selector.confidence_threshold) with true.
      cbv iota. intros H. right. split; [left; reflexivity|].
      destruct (String.eqb (get_or (f_intent features) "general") "factual"
                || strategy_eqb strategy_name Transformer) eqn:Hpolicy.
      * inversion H; subst. left. split; [|split; reflexivity].
        apply orb_true_iff in Hpolicy. destruct Hpolicy as [Hp|Hp].
        -- left. apply String.eqb_eq. exact Hp.
        -- right. apply strategy_eqb_eq. exact Hp.
      * right. apply orb_false_iff in Hpolicy. destruct Hpolicy as [Hp1 Hp2].
        split; [apply String.eqb_neq; exact Hp1|].
        split; [apply strategy_eqb_neq; exact Hp2|].
        unfold bind in H.
        destruct (predict Transformer query features env2)
          as [[e|fallback] env3] eqn:Hfb; [discriminate|].
        exists fallback.
        destruct (Qltb (confidence fallback) 0.2) eqn:Hfbc;
          inversion H; subst; (split; [reflexivity|]).
        -- left. split; [apply Qltb_lt; exact Hfbc | reflexivity].
        -- right. split; [apply Qltb_ge; exact Hfbc | reflexivity].
    + destruct (Qltb (confidence primary) Selector.confidence_threshold)
        eqn:Hlow.
      * intros H. right. split; [right; apply Qltb_lt; exact Hlow|].
        destruct (String.eqb (get_or (f_intent features) "general") "factual"
                  || strategy_eqb strategy_name Transformer) eqn:Hpolicy.
        -- inversion H; subst. left. split; [|split; reflexivity].
           apply orb_true_iff in Hpolicy. destruct Hpolicy as [Hp|Hp].
           ++ left. apply String.eqb_eq. exact Hp.
           ++ right. apply strategy_eqb_eq. exact Hp.
        -- right. apply orb_false_iff in Hpolicy.
           destruct Hpolicy as [Hp1 Hp2].
           split; [apply String.eqb_neq; exact Hp1|].
           split; [apply strategy_eqb_neq; exact Hp2|].
           unfold bind in H.
           destruct (predict Transformer query features env2)
             as [[e|fallback] env3] eqn:Hfb; [discriminate|].
           exists fallback.
           destruct (Qltb (confidence fallback) 0.2) eqn:Hfbc;
             inversion H; subst; (split; [reflexivity|]).
           ++ left. split; [apply Qltb_lt; exact Hfbc | reflexivity].
           ++ right. split; [apply Qltb_ge; exact Hfbc | reflexivity].
      * intros H. inversion H; subst. left.
        split; [reflexivity|]. split; [apply Qltb_ge; exact Hlow|].
        split; reflexivity.
Qed.

Lemma recorded_calls (strategy_name : StrategyName) (env : Env) :
  predict_calls (trace (recorded (Predict strategy_name) env))
  = (predict_calls (trace env) ++ [strategy_name])%list.
Proof. simpl. rewrite predict_calls_app. reflexivity. Qed.

(** X13: ThresholdCheck.  When the guard is silent and the primary strategy
    returns a non-blank answer with confidence at least 0.35, the
    execution returns exactly that triple under the selected name, after
    the two calls Rule-Based and primary. *)
Theorem confident_primary_is_returned
    (strategy_name : StrategyName) (query : string) (features : Features)
    (env env2 : Env) (primary : Prediction) :
  (confidence (RuleEngine.predict query features) < 0.9)%Q ->
  predict strategy_name query features (recorded (Predict RuleBased) env)
  = (inr primary, env2) ->
  Text.is_blank (answer primary) = false ->
  (0.35 <= confidence primary)%Q ->
  execute_strategy strategy_name query features env
  = (inr (Executed (answer primary) (confidence primary) (reason primary)
            strategy_name),
     env2)
  /\ predict_calls (trace env2)
     = (predict_calls (trace env) ++ [RuleBased; strategy_name])%list.
Proof.
  intros Hguard Hprimary Hblank Hconf. split.
  - unfold execute_strategy. unfold bind at 1.
    rewrite predict_rule_based. cbv beta iota.
    assert (Hq : Qle_bool 0.9 (confidence (RuleEngine.predict query features))
                 = false).
    { destruct (Qle_bool _ _) eqn:E; [|reflexivity].
      apply Qle_bool_iff in E. exfalso. exact (Qlt_not_le _ _ Hguard E). }
    rewrite Hq. unfold bind at 1. rewrite Hprimary. cbv zeta.
    rewrite Hblank. apply Qltb_ge in Hconf.
    unfold Selector.confidence_threshold. rewrite Hconf. reflexivity.
  - destruct (predict_trace _ _ _ _ _ _ Hprimary) as [Hcalls _].
    rewrite Hcalls, recorded_calls, <- app_assoc. reflexivity.
Qed.

(** X14: EmptyCheck.  A blank answer of the primary strategy is never
    returned, whatever confidence came with it: the execution ends in
    the safe refusal under the selected name, or with Transformer as the
    strategy used. *)
Theorem blank_primary_is_discarded
    (strategy_name : StrategyName) (query : string) (features : Features)
    (env env2 env' : Env) (primary : Prediction) (out : Outcome) :
  (confidence (RuleEngine.predict query features) < 0.9)%Q ->
  predict strategy_name query features (recorded (Predict RuleBased) env)
  = (inr primary, env2) ->
  Text.is_blank (answer primary) = true ->
  execute_strategy strategy_name query features env = (inr out, env') ->
  (out = Executed safe_refusal 0.0 "Safe Failure: Confidence below threshold"
           strategy_name
   /\ env' = env2)
  \/ (out_strategy out = Transformer
      /\ strategy_name <> Transformer
      /\ predict_calls (trace env')
         = (predict_calls (trace env)
            ++ [RuleBased; strategy_name; Transformer])%list).
Proof.
  intros Hguard Hprimary Hblank Hexec.
  destruct (execute_strategy_cases _ _ _ _ _ _ Hexec)
    as [(Hge & _) | (_ & primary' & env2' & Hp & Hrest)].
  { exfalso. exact (Qlt_not_le _ _ Hguard Hge). }
  rewrite Hprimary in Hp. inversion Hp; subst primary' env2'.
  destruct Hrest as [(Hnb & _) | (_ & Hpolicy)]; [congruence|].
  destruct Hpolicy as [(_ & -> & ->) | (_ & Hname & fallback & Hfb & Hout)].
  - left. split; reflexivity.
  - right.
    destruct (predict_trace _ _ _ _ _ _ Hprimary) as [Hc2 _].
    destruct (predict_trace _ _ _ _ _ _ Hfb) as [Hc3 _].
    split; [destruct Hout as [(_ & ->) | (_ & ->)]; reflexivity|].
    split; [exact Hname|].
    rewrite Hc3, Hc2, recorded_calls, <- !app_assoc. reflexivity.
Qed.

(** X15: confidence floor.  Every outcome is either the safe refusal at
    confidence 0.0 or carries a confidence of at least 0.2. *)
Theorem outcome_is_refusal_or_confident
    (strategy_name : StrategyName) (query : string) (features : Features)
    (env env' : Env) (out : Outcome) :
  execute_strategy strategy_name query features env = (inr out, env') ->
  (out_answer out = safe_refusal /\ out_confidence out = 0.0%Q)
  \/ (0.2 <= out_confidence out)%Q.
Proof.
  intros Hexec.
  destruct (execute_strategy_cases _ _ _ _ _ _ Hexec)
    as [(Hge & -> & _) | (_ & primary & env2 & _ & Hrest)].
  { right. simpl. apply Qle_trans with (y := 0.9%Q); [discriminate|exact Hge]. }
  destruct Hrest as [(_ & Hge & -> & _) | (_ & Hpolicy)].
  { right. simpl. apply Qle_trans with (y := 0.35%Q); [discriminate|exact Hge]. }
  destruct Hpolicy as [(_ & -> & _) | (_ & _ & fallback & _ & Hout)].
  { left. split; reflexivity. }
  destruct Hout as [(_ & ->) | (Hge & ->)].
  - left. split; reflexivity.
  - right. exact Hge.
Qed.

(** X16: call structure.  An execution calls Rule-Based first, then at most
    the selected strategy, then at most Transformer once as fallback; the
    strategy it reports is the last one it called. *)
Theorem strategy_used_is_last_called
    (strategy_name : StrategyName) (query : string) (features : Features)
    (env env' : Env) (out : Outcome) :
  execute_strategy strategy_name query features env = (inr out, env') ->
  exists calls,
    predict_calls (trace env') = (predict_calls (trace env) ++ calls)%list
    /\ (calls = [RuleBased]
        \/ calls = [RuleBased; strategy_name]
        \/ (calls = [RuleBased; strategy_name; Transformer]
            /\ strategy_name <> Transformer))
    /\ List.last calls RuleBased = out_strategy out.
Proof.
  intros Hexec.
  destruct (execute_strategy_cases _ _ _ _ _ _ Hexec)
    as [(_ & -> & ->) | (_ & primary & env2 & Hp & Hrest)].
  { exists [RuleBased]. split; [apply recorded_calls|]. auto. }
  destruct (predict_trace _ _ _ _ _ _ Hp) as [Hc2 _].
  rewrite recorded_calls, <- app_assoc in Hc2. simpl in Hc2.
  destruct Hrest as [(_ & _ & -> & ->) | (_ & Hpolicy)].
  { exists [RuleBased; strategy_name]. auto. }
  destruct Hpolicy as [(_ & -> & ->) | (_ & Hname & fallback & Hfb & Hout)].
  { exists [RuleBased; strategy_name]. auto. }
  destruct (predict_trace _ _ _ _ _ _ Hfb) as [Hc3 _].
  exists [RuleBased; strategy_name; Transformer]. split.
  - rewrite Hc3, Hc2, <- app_assoc. reflexivity.
  - split; [auto|]. destruct Hout as [(_ & ->) | (_ & ->)]; reflexivity.
Qed.

(** *** The engines inside an execution *)

Lemma rule_predict_no_match (query : string) (features : Features) :
  RuleEngine.matches query = false ->
  RuleEngine.predict query features = Triple "" 0.0 "No rule matched".
Proof.
  unfold RuleEngine.predict, RuleEngine.matches. cbv zeta.
  destruct (RuleEngine._is_invalid_role_query _) as [[|] correction];
    [discriminate|].
  cbn [fst orb].
  match goal with
  | |- context [existsb ?f ?l] => destruct (existsb f l)
  end; [discriminate|].
  cbn [orb].
  destruct (RuleEngine.first_static_rule _) as [[key ans]|];
    [discriminate | reflexivity].
Qed.

(** X17: Rule-Based never answers for itself.  When Rule-Based is the
    selected strategy and no rule matches, the execution calls it twice
    to no effect and ends in the safe refusal (factual intent) or with
    Transformer as the strategy used. *)
Theorem unmatched_rule_based_falls_back
    (query : string) (features : Features) (env env' : Env) (out : Outcome) :
  RuleEngine.matches query = false ->
  execute_strategy RuleBased query features env = (inr out, env') ->
  (get_or (f_intent features) "general" = "factual"
   /\ out = Executed safe_refusal 0.0
              "Safe Failure: Confidence below threshold" RuleBased
   /\ predict_calls (trace env')
      = (predict_calls (trace env) ++ [RuleBased; RuleBased])%list)
  \/ (get_or (f_intent features) "general" <> "factual"
      /\ out_strategy out = Transformer
      /\ predict_calls (trace env')
         = (predict_calls (trace env)
            ++ [RuleBased; RuleBased; Transformer])%list).
Proof.
  intros Hno Hexec.
  pose proof (rule_predict_no_match query features Hno) as Hrule.
  destruct (execute_strategy_cases _ _ _ _ _ _ Hexec)
    as [(Hge & _) | (_ & primary & env2 & Hp & Hrest)].
  { rewrite Hrule in Hge. exfalso. revert Hge. apply Qlt_not_le. reflexivity. }
  rewrite predict_rule_based, Hrule in Hp. inversion Hp; subst primary env2.
  destruct Hrest as [(Hnb & _) | (_ & Hpolicy)]; [discriminate|].
  destruct Hpolicy as [(Hint & -> & ->) | (Hint & _ & fallback & Hfb & Hout)].
  - left. destruct Hint as [Hint|Habs]; [|discriminate Habs].
    split; [exact Hint|]. split; [reflexivity|].
    rewrite !recorded_calls, <- app_assoc. reflexivity.
  - right. split; [exact Hint|].
    destruct (predict_trace _ _ _ _ _ _ Hfb) as [Hc3 _].
    split; [destruct Hout as [(_ & ->) | (_ & ->)]; reflexivity|].
    rewrite Hc3, !recorded_calls, <- !app_assoc. reflexivity.
Qed.

Lemma transformer_governance (query : string) (features : Features)
    (env : Env) :
  simulation_mode = false ->
  Text.any_in TransformerEngine.governance_keywords (Text.lower query) = true ->
  predict Transformer query features env
  = (inr TransformerEngine.governance_block,
     recorded (Predict Transformer) env).
Proof.
  intros Hsim Hkw. unfold predict, bind, emit. simpl strategies.
  unfold transformer_predict. rewrite Hsim, Hkw. reflexivity.
Qed.

(** X18: governance block.  With a loaded model, a query that names a
    governance keyword never gets an answer attributed to Transformer:
    if the strategy used is Transformer, the outcome is the safe refusal
    at confidence 0.0. *)
Theorem governance_query_never_generated
    (strategy_name : StrategyName) (query : string) (features : Features)
    (env env' : Env) (out : Outcome) :
  simulation_mode = false ->
  Text.any_in TransformerEngine.governance_keywords (Text.lower query) = true ->
  execute_strategy strategy_name query features env = (inr out, env') ->
  out_strategy out = Transformer ->
  out_answer out = safe_refusal /\ out_confidence out = 0.0%Q.
Proof.
  intros Hsim Hkw Hexec Hused.
  destruct (execute_strategy_cases _ _ _ _ _ _ Hexec)
    as [(_ & -> & _) | (_ & primary & env2 & Hp & Hrest)]; [discriminate|].
  destruct Hrest as [(_ & Hge & -> & _) | (_ & Hpolicy)].
  { simpl in Hused. subst strategy_name.
    rewrite (transformer_governance _ _ _ Hsim Hkw) in Hp.
    inversion Hp; subst primary.
    exfalso. revert Hge. apply Qlt_not_le. reflexivity. }
  destruct Hpolicy as [(_ & -> & _) | (_ & _ & fallback & Hfb & Hout)];
    [split; reflexivity|].
  rewrite (transformer_governance _ _ _ Hsim Hkw) in Hfb.
  inversion Hfb; subst fallback.
  destruct Hout as [(_ & ->) | (Hge & _)]; [split; reflexivity|].
  exfalso. revert Hge. apply Qlt_not_le. reflexivity.
Qed.

Lemma simulated_response (query : string) (features : Features) :
  Text.is_blank
    (answer (TransformerEngine._simulate_response query features)) = false
  /\ (0.75 <= confidence (TransformerEngine._simulate_response query features))%Q.
Proof.
  unfold TransformerEngine._simulate_response. cbv zeta.
  destruct (Text.any_in _ _).
  - split; [apply is_blank_head; reflexivity | discriminate].
  - destruct (match f_complexity features with
              | Some c => String.eqb c "high"
              | None => false
              end).
    + split; [apply is_blank_head; reflexivity | discriminate].
    + split; [apply is_blank_head; reflexivity | discriminate].
Qed.

Lemma transformer_simulated (query : string) (features : Features)
    (env : Env) :
  simulation_mode = true ->
  predict Transformer query features env
  = (inr (TransformerEngine._simulate_response query features),
     recorded (Predict Transformer) env).
Proof.
  intros Hsim. unfold predict, bind, emit. simpl strategies.
  unfold transformer_predict. rewrite Hsim. reflexivity.
Qed.

(** X19: simulation mode.  When the Transformer engine runs in simulation
    mode, a query that passes the rule guard and is not factual always
    ends with a confidence of at least 0.35: no refusal is produced. *)
Theorem simulation_mode_never_refuses
    (strategy_name : StrategyName) (query : string) (features : Features)
    (env env' : Env) (out : Outcome) :
  simulation_mode = true ->
  get_or (f_intent features) "general" <> "factual" ->
  execute_strategy strategy_name query features env = (inr out, env') ->
  (0.35 <= out_confidence out)%Q.
Proof.
  intros Hsim Hint Hexec.
  destruct (execute_strategy_cases _ _ _ _ _ _ Hexec)
    as [(Hge & -> & _) | (_ & primary & env2 & Hp & Hrest)].
  { simpl. apply Qle_trans with (y := 0.9%Q); [discriminate | exact Hge]. }
  destruct Hrest as [(_ & Hge & -> & _) | (Hlow & Hpolicy)]; [exact Hge|].
  destruct Hpolicy as [(Hpol & _) | (_ & _ & fallback & Hfb & Hout)].
  - exfalso. destruct Hpol as [Hpol | ->]; [exact (Hint Hpol)|].
    rewrite (transformer_simulated _ _ _ Hsim) in Hp.
    inversion Hp; subst primary.
    destruct (simulated_response query features) as [Hnb Hge].
    destruct Hlow as [Hb | Hlt]; [congruence|].
    apply (Qlt_not_le _ _ Hlt).
    apply Qle_trans with (y := 0.75%Q); [discriminate | exact Hge].
  - rewrite (transformer_simulated _ _ _ Hsim) in Hfb.
    inversion Hfb; subst fallback.
    destruct (simulated_response query features) as [_ Hge].
    destruct Hout as [(Hlt & _) | (_ & ->)].
    + exfalso. apply (Qlt_not_le _ _ Hlt).
      apply Qle_trans with (y := 0.75%Q); [discriminate | exact Hge].
    + simpl. apply Qle_trans with (y := 0.75%Q); [discriminate | exact Hge].
Qed.

End ExecutorFacts.

(** ** The retrieval cascade *)

Section RetrievalFacts.

Context {services : Services}.

(** What the DuckDuckGo tier returns and leaves behind: one request, an
    untouched cache, and either an answer at 0.85 or "unavailable". *)
Lemma _fetch_duckduckgo_spec (query : string) (env env' : Env) r :
  _fetch_duckduckgo query env = (r, env') ->
  exists result,
    r = inr result
    /\ trace env' = (trace env ++ [Request DuckDuckGo])%list
    /\ cache env' = cache env
    /\ ((Text.nonempty (answer result) = true
         /\ confidence result = 0.85%Q
         /\ reason result = "Web Retrieval (DuckDuckGo IA)")
        \/ result = unavailable "DuckDuckGo unavailable").
Proof.
  unfold _fetch_duckduckgo, bind, try_except, http_get, lift, ret, raise.
  simpl.
  destruct (duckduckgo_api query (world env)) as [[e|status json] w]; simpl.
  - intros E. inversion E; subst. eexists. repeat split. right. reflexivity.
  - destruct (status =? 200)%Z.
    + destruct json as [e|data]; simpl.
      * intros E. inversion E; subst. eexists. repeat split. right. reflexivity.
      * destruct (or_else (AbstractText data)
                    (or_else (Answer data)
                       (Some (get_or (DefinitionText data) "")))) as [a|].
        -- destruct (Text.nonempty a) eqn:Ha; intros E; inversion E; subst;
             eexists; (split; [reflexivity|]); (split; [reflexivity|]);
             (split; [reflexivity|]).
           ++ left. simpl. auto.
           ++ right. reflexivity.
        -- intros E. inversion E; subst. eexists. repeat split. right.
           reflexivity.
    + intros E. inversion E; subst. eexists. repeat split. right. reflexivity.
Qed.

Lemma returns_ret {A : Type} (P : A -> Prop) (a : A) : P a -> returns P (ret a).
Proof. intros Ha env a' env' E. inversion E; subst. exact Ha. Qed.

Lemma returns_raise {A : Type} (P : A -> Prop) (e : Exn) :
  returns P (raise (A := A) e).
Proof. intros env a env' E. discriminate. Qed.

Lemma returns_bind {A B : Type} (Q : A -> Prop) (P : B -> Prop) (m : M A)
    (k : A -> M B) :
  returns Q m -> (forall a, Q a -> returns P (k a)) -> returns P (bind m k).
Proof.
  intros Hm Hk env b env' E. unfold bind in E.
  destruct (m env) as [[e|a] env1] eqn:Em; [discriminate|].
  exact (Hk a (Hm _ _ _ Em) _ _ _ E).
Qed.

Lemma returns_any {A : Type} (m : M A) : returns (fun _ => True) m.
Proof. intros env a env' _. exact I. Qed.

Lemma returns_try {A : Type} (P : A -> Prop) (body : M A)
    (handler : Exn -> M A) :
  returns P body -> (forall e, returns P (handler e)) ->
  returns P (try_except body handler).
Proof.
  intros Hb Hh env a env' E. unfold try_except in E.
  destruct (body env) as [[e|a0] env1] eqn:Eb.
  - exact (Hh _ _ _ _ E).
  - inversion E; subst. exact (Hb _ _ _ Eb).
Qed.

(** The results the Wikipedia tier can give. *)
Lemma _fetch_wikipedia_returns (frames : nat) (query : string) :
  returns
    (fun result =>
       confidence result = 0.90%Q
       \/ result = unavailable "Wikipedia unavailable")
    (_fetch_wikipedia frames query).
Proof.
  revert query. induction frames as [|frames IH]; intros query; simpl.
  - apply returns_bind
      with (Q := fun found => forall result, found = Some result ->
                   confidence result = 0.90%Q
                   \/ result = unavailable "Wikipedia unavailable").
    + apply returns_try; [|intros e; apply returns_ret; discriminate].
      apply returns_bind with (Q := fun _ => True); [apply returns_any|].
      intros response _.
      destruct (fst response =? 200)%Z.
      * apply returns_bind with (Q := fun _ => True); [apply returns_any|].
        intros data _. destruct (extract data).
        -- apply returns_ret. intros result E. inversion E; subst. left.
           reflexivity.
        -- apply returns_ret. discriminate.
      * destruct (fst response =? 404)%Z; [|apply returns_ret; discriminate].
        apply returns_bind with (Q := fun _ => True); [apply returns_any|].
        intros search_res _.
        destruct (fst search_res =? 200)%Z; [|apply returns_ret; discriminate].
        apply returns_bind with (Q := fun _ => True); [apply returns_any|].
        intros search_data _.
        destruct search_data as [|[top_title|] rest];
          [apply returns_ret; discriminate | apply returns_raise
          | apply returns_raise].
    + intros [result|] Hfound; apply returns_ret; [apply Hfound; reflexivity|].
      right. reflexivity.
  - apply returns_bind
      with (Q := fun found => forall result, found = Some result ->
                   confidence result = 0.90%Q
                   \/ result = unavailable "Wikipedia unavailable").
    + apply returns_try; [|intros e; apply returns_ret; discriminate].
      apply returns_bind with (Q := fun _ => True); [apply returns_any|].
      intros response _.
      destruct (fst response =? 200)%Z.
      * apply returns_bind with (Q := fun _ => True); [apply returns_any|].
        intros data _. destruct (extract data).
        -- apply returns_ret. intros result E. inversion E; subst. left.
           reflexivity.
        -- apply returns_ret. discriminate.
      * destruct (fst response =? 404)%Z; [|apply returns_ret; discriminate].
        apply returns_bind with (Q := fun _ => True); [apply returns_any|].
        intros search_res _.
        destruct (fst search_res =? 200)%Z; [|apply returns_ret; discriminate].
        apply returns_bind with (Q := fun _ => True); [apply returns_any|].
        intros search_data _.
        destruct search_data as [|[top_title|] rest];
          [apply returns_ret; discriminate | | apply returns_raise].
        eapply returns_bind; [apply IH|].
        intros result Hres. apply returns_ret.
        intros result' E. inversion E; subst. exact Hres.
    + intros [result|] Hfound; apply returns_ret; [apply Hfound; reflexivity|].
      right. reflexivity.
Qed.

(** X20: the web tier.  [_fetch_from_web_apis] always returns; its result is
    a non-empty DuckDuckGo answer at confidence 0.85, a non-empty
    Wikipedia extract at 0.90, or the exhausted triple at 0.0.  DuckDuckGo
    is asked first, Wikipedia is not asked when DuckDuckGo answers, and
    the cache is not touched. *)
Theorem web_tier_results (query : string) (env env' : Env) r :
  _fetch_from_web_apis query env = (r, env') ->
  exists result later,
    r = inr result
    /\ web_result result
    /\ trace env' = (trace env ++ Request DuckDuckGo :: later)%list
    /\ (confidence result = 0.85%Q -> later = [])
    /\ cache env' = cache env.
Proof.
  unfold _fetch_from_web_apis. unfold bind at 1.
  destruct (_fetch_duckduckgo query env) as [r1 env1] eqn:Hddg.
  destruct (_fetch_duckduckgo_spec _ _ _ _ Hddg)
    as (res1 & -> & Htrace1 & Hcache1 & Hshape1).
  destruct (Text.nonempty (answer res1)) eqn:Hne1.
  - intros E. inversion E; subst. exists res1, []. split; [reflexivity|].
    split.
    + destruct Hshape1 as [(_ & Hc & Hr) | ->]; [left; auto | discriminate].
    + split; [exact Htrace1|]. split; [reflexivity | exact Hcache1].
  - unfold bind.
    destruct (_fetch_wikipedia recursion_limit query env1)
      as [[e|res2] env2] eqn:Hwiki.
    + destruct (_fetch_wikipedia_total recursion_limit query env1)
        as (a & env3 & Ha). rewrite Ha in Hwiki. discriminate.
    + pose proof (_fetch_wikipedia_frame extends extends_frame _ _ _ _ _ Hwiki)
        as [later Hlater].
      pose proof (_fetch_wikipedia_frame same_cache same_cache_frame
                    _ _ _ _ _ Hwiki) as Hcache2.
      unfold same_cache in Hcache2.
      pose proof (_fetch_wikipedia_returns _ _ _ _ _ Hwiki) as Hshape2.
      assert (Htr : trace env2
                    = (trace env ++ Request DuckDuckGo :: later)%list).
      { rewrite Hlater, Htrace1, <- app_assoc. reflexivity. }
      destruct (Text.nonempty (answer res2)) eqn:Hne2;
        intros E; inversion E; subst.
      * exists res2, later. split; [reflexivity|]. split.
        -- destruct Hshape2 as [H | ->]; [|discriminate].
           right. left. auto.
        -- split; [exact Htr|]. split.
           ++ intros Hc. destruct Hshape2 as [H | ->].
              ** rewrite H in Hc. discriminate.
              ** discriminate.
           ++ rewrite Hcache2. exact Hcache1.
      * eexists _, later. split; [reflexivity|]. split.
        -- right. right. reflexivity.
        -- split; [exact Htr|]. split; [discriminate|].
           rewrite Hcache2. exact Hcache1.
Qed.

(** *** The cache across an execution *)

Lemma cache_step_frame (query : string) : Frame (cache_step query).
Proof.
  split; unfold cache_step; simpl.
  - intros env. split; auto.
  - intros e1 e2 e3 [H12 H12'] [H23 H23']. split.
    + intros key entry H. apply H23, H12, H.
    + intros key entry H. destruct (H23' _ _ H) as [H2|H2]; [|auto].
      apply H12', H2.
  - intros env ev w _. split; auto.
  - intros env w. split; auto.
Qed.

Lemma retrieval_predict_cache_step (query : string) (features : Features) :
  preserves (cache_step query) (retrieval_predict query features).
Proof.
  intros env r env' E.
  destruct r as [e|result].
  { destruct (retrieval_predict_total query features env) as (a & env1 & Ha).
    rewrite Ha in E. discriminate. }
  destruct (retrieval_predict_spec _ _ _ _ _ E)
    as [[_ ->] | [(Hmiss & Hconf & Hcache) | (_ & _ & Hcache)]];
    unfold cache_step.
  - split; auto.
  - rewrite Hcache. split.
    + intros key entry H.
      destruct (decide (Text.strip (Text.lower query) = key)) as [<-|Hne].
      * rewrite Hmiss in H. discriminate.
      * rewrite lookup_insert_ne by exact Hne. exact H.
    + intros key entry.
      destruct (decide (Text.strip (Text.lower query) = key)) as [<-|Hne].
      * rewrite lookup_insert_eq. intros H. inversion H; subst. right.
        split; [reflexivity | exact Hconf].
      * rewrite lookup_insert_ne by exact Hne. auto.
  - rewrite Hcache. split; auto.
Qed.

Lemma predict_cache_step (strategy_name : StrategyName) (query : string)
    (features : Features) :
  preserves (cache_step query) (predict strategy_name query features).
Proof.
  unfold predict.
  apply preserves_bind; [apply cache_step_frame | |].
  - intros env r env' E. inversion E; subst. unfold cache_step. simpl.
    split; auto.
  - intros _. destruct strategy_name; simpl.
    + apply preserves_ret, cache_step_frame.
    + apply retrieval_predict_cache_step.
    + apply ml_predict_frame, cache_step_frame.
    + apply transformer_predict_frame, cache_step_frame.
Qed.

(** X21: the cache across an execution.  Whatever strategy is executed and
    however it ends, every entry the cache had is still there with the
    same value (nothing is replaced or evicted), and the only entry that
    can be new is one for the normalised query, with a confidence above
    0.1. *)
Theorem execution_only_adds_to_cache
    (strategy_name : StrategyName) (query : string) (features : Features)
    (env env' : Env) r :
  execute_strategy strategy_name query features env = (r, env') ->
  (forall key entry,
     cache env !! key = Some entry -> cache env' !! key = Some entry)
  /\ (forall key entry,
        cache env' !! key = Some entry ->
        cache env !! key = Some entry
        \/ (key = Text.normalize query /\ (0.1 < confidence entry)%Q)).
Proof.
  revert env r env'. change (preserves (cache_step query)
                               (execute_strategy strategy_name query features)).
  pose proof (cache_step_frame query) as HF.
  unfold execute_strategy.
  apply preserves_bind; [exact HF | apply predict_cache_step |].
  intros rule.
  destruct (Qle_bool _ _); [apply preserves_ret, HF|].
  apply preserves_bind; [exact HF | apply predict_cache_step |].
  intros primary. cbv zeta.
  destruct (Qltb _ _); [|apply preserves_ret, HF].
  destruct (_ || _); [apply preserves_ret, HF|].
  apply preserves_bind; [exact HF | apply predict_cache_step |].
  intros fallback.
  destruct (Qltb _ _); apply preserves_ret, HF.
Qed.

(** X22: a local hit ends the cascade.  On a cache miss, when the index
    scores a document above 0.4, the result is that document with the
    score as confidence; it is cached under the normalised query, and the
    only lookup made is the similarity search: no provider is asked. *)
Theorem local_hit_asks_no_provider
    (query : string) (features : Features) (env : Env)
    (best_match_idx : nat) (best_score : Q) (document : string) :
  cache env !! Text.normalize query = None ->
  documents <> [] -> vectorizer = true ->
  vector_search query = inr (best_match_idx, best_score) ->
  (0.4 < best_score)%Q ->
  nth_error documents best_match_idx = Some document ->
  let result :=
    Triple document best_score
      ("Local KB (Similarity: " ++ format_2f best_score ++ ")") in
  retrieval_predict query features env
  = (inr result,
     {| world := world env;
        cache := <[Text.normalize query := result]> (cache env);
        trace := trace env ++ [SimilaritySearch] |}).
Proof.
  intros Hmiss Hdocs Hvec Hsearch Hscore Hdoc. cbv zeta.
  unfold retrieval_predict, bind at 1, get_cache. cbv zeta.
  unfold Text.normalize in Hmiss. rewrite Hmiss.
  unfold bind at 1, local_search.
  assert (Hlen : negb (Nat.eqb (List.length documents) 0) = true).
  { destruct documents; [congruence | reflexivity]. }
  rewrite Hlen, Hvec. cbn [andb].
  unfold try_except, bind, emit, lift. rewrite Hsearch. simpl.
  apply Qltb_lt in Hscore. rewrite Hscore, Hdoc. reflexivity.
Qed.

End RetrievalFacts.

(** ** The rule engine *)

Lemma static_answers_not_blank :
  Forall (fun rule => Text.is_blank (snd rule) = false) RuleEngine.static_rules.
Proof. repeat constructor. Qed.

Lemma role_correction_not_blank (query : string) :
  fst (RuleEngine._is_invalid_role_query query) = true ->
  Text.is_blank (snd (RuleEngine._is_invalid_role_query query)) = false.
Proof.
  unfold RuleEngine._is_invalid_role_query. cbv zeta.
  repeat match goal with
         | |- context [match ?x with Some _ => _ | None => _ end] =>
             destruct x
         end; cbn [fst snd]; intros H;
    [apply is_blank_head; reflexivity
    | apply is_blank_head; reflexivity
    | discriminate].
Qed.

(** X12: the rule engine answers exactly when a rule matches: its answer
    is blank if and only if no role-entity, restricted-pattern or static
    rule matches the normalised query. *)
Theorem rule_answer_blank_iff_no_match (query : string) (features : Features) :
  Text.is_blank (answer (RuleEngine.predict query features))
  = negb (RuleEngine.matches query).
Proof.
  unfold RuleEngine.predict, RuleEngine.matches. cbv zeta.
  destruct (RuleEngine._is_invalid_role_query (Text.strip (Text.lower query)))
    as [[|] correction] eqn:Hrole.
  - cbn [fst orb negb answer].
    pose proof (role_correction_not_blank (Text.strip (Text.lower query)))
      as Hnb.
    rewrite Hrole in Hnb. apply Hnb. reflexivity.
  - cbn [fst orb].
    match goal with
    | |- context [existsb ?f ?l] => destruct (existsb f l)
    end.
    + cbn [orb negb answer]. vm_compute. reflexivity.
    + cbn [orb].
      destruct (RuleEngine.first_static_rule _) as [[key ans]|] eqn:Hfind.
      * cbn [negb answer]. unfold RuleEngine.first_static_rule in Hfind.
        apply find_some in Hfind. destruct Hfind as [Hin _].
        pose proof static_answers_not_blank as Hall.
        rewrite List.Forall_forall in Hall. exact (Hall _ Hin).
      * reflexivity.
Qed.

(** ** The added statements at concrete inputs *)

Lemma select_strategy_is_first_maximum_witness :
  (Selector.final_utility Demo.uniform Demo.explanation_features Retrieval
   <= Selector.final_utility Demo.uniform Demo.explanation_features
        (Selector.select_strategy Demo.uniform Demo.explanation_features))%Q
  /\ ((Selector.rank Retrieval
       < Selector.rank
           (Selector.select_strategy Demo.uniform Demo.explanation_features))%nat ->
      (Selector.final_utility Demo.uniform Demo.explanation_features Retrieval
       < Selector.final_utility Demo.uniform Demo.explanation_features
           (Selector.select_strategy Demo.uniform Demo.explanation_features))%Q).
Proof.
  apply (select_strategy_is_first_maximum Demo.uniform
           Demo.explanation_features).
  - reflexivity.
  - discriminate.
  - reflexivity.
Defined.

Lemma select_by_weights_is_first_maximum_witness :
  Selector._select_by_weights Selector.init = RuleBased
  /\ (Selector.strategy_weights Selector.init Transformer
      <= Selector.strategy_weights Selector.init
           (Selector._select_by_weights Selector.init))%Q.
Proof.
  split; [reflexivity|].
  apply (proj1 (select_by_weights_is_first_maximum Selector.init Transformer)).
Defined.

Lemma fresh_selector_routes_by_intent_witness :
  Selector.select_strategy Selector.init Demo.explanation_features = Transformer.
Proof.
  apply (fresh_selector_routes_by_intent Demo.explanation_features);
    reflexivity.
Defined.




Lemma confident_primary_is_returned_witness :
  @execute_strategy Demo.loaded ClassicalML "define recursion"
    (Analyzer.analyze "define recursion") (Demo.fresh_loaded 0)
  = (inr (Executed "This is a definition query. Use Retrieval for details."
            0.9 "ML Intent: definition" ClassicalML),
     recorded (Predict ClassicalML)
       (recorded (Predict RuleBased) (Demo.fresh_loaded 0))).
Proof.
  apply (proj1 (@confident_primary_is_returned Demo.loaded ClassicalML
                  "define recursion" (Analyzer.analyze "define recursion")
                  (Demo.fresh_loaded 0)
                  (recorded (Predict ClassicalML)
                     (recorded (Predict RuleBased) (Demo.fresh_loaded 0)))
                  (Triple "This is a definition query. Use Retrieval for details."
                     0.9 "ML Intent: definition")
                  ltac:(reflexivity) ltac:(vm_compute; reflexivity)
                  ltac:(vm_compute; reflexivity) ltac:(discriminate))).
Defined.

(** The run used by the next examples: Rule-Based is selected for a
    query no rule matches. *)
Lemma blank_primary_is_discarded_witness :
  let run :=
    @execute_strategy Demo.services RuleBased "hello there"
      (Analyzer.analyze "hello there") (Demo.fresh 0) in
  match fst run with
  | inr out =>
      (out = Executed safe_refusal 0.0
               "Safe Failure: Confidence below threshold" RuleBased
       /\ snd run = recorded (Predict RuleBased)
                      (recorded (Predict RuleBased) (Demo.fresh 0)))
      \/ (out_strategy out = Transformer
          /\ RuleBased <> Transformer
          /\ predict_calls (trace (snd run))
             = (predict_calls (trace (Demo.fresh 0))
                ++ [RuleBased; RuleBased; Transformer])%list)
  | inl _ => False
  end.
Proof.
  cbv zeta.
  destruct (@execute_strategy Demo.services RuleBased "hello there"
              (Analyzer.analyze "hello there") (Demo.fresh 0))
    as [[e|out] env'] eqn:E; [vm_compute in E; discriminate|].
  cbn [fst snd].
  apply (@blank_primary_is_discarded Demo.services RuleBased "hello there"
           (Analyzer.analyze "hello there") (Demo.fresh 0)
           (recorded (Predict RuleBased)
              (recorded (Predict RuleBased) (Demo.fresh 0)))
           env' (Triple "" 0.0 "No rule matched") out).
  - reflexivity.
  - vm_compute. reflexivity.
  - reflexivity.
  - exact E.
Defined.

Lemma outcome_is_refusal_or_confident_witness :
  match fst (@execute_strategy Demo.services Retrieval "What is Python?"
               Demo.plain_factual (Demo.fresh 0)) with
  | inr out =>
      (out_answer out = safe_refusal /\ out_confidence out = 0.0%Q)
      \/ (0.2 <= out_confidence out)%Q
  | inl _ => False
  end.
Proof.
  destruct (@execute_strategy Demo.services Retrieval "What is Python?"
              Demo.plain_factual (Demo.fresh 0))
    as [[e|out] env'] eqn:E; [vm_compute in E; discriminate|].
  cbn [fst].
  exact (@outcome_is_refusal_or_confident Demo.services Retrieval
           "What is Python?" Demo.plain_factual (Demo.fresh 0) env' out E).
Defined.

Lemma strategy_used_is_last_called_witness :
  let run :=
    @execute_strategy Demo.services ClassicalML "hello there"
      (Analyzer.analyze "hello there") (Demo.fresh 0) in
  match fst run with
  | inr out =>
      exists calls,
        predict_calls (trace (snd run))
        = (predict_calls (trace (Demo.fresh 0)) ++ calls)%list
        /\ (calls = [RuleBased]
            \/ calls = [RuleBased; ClassicalML]
            \/ (calls = [RuleBased; ClassicalML; Transformer]
                /\ ClassicalML <> Transformer))
        /\ List.last calls RuleBased = out_strategy out
  | inl _ => False
  end.
Proof.
  cbv zeta.
  destruct (@execute_strategy Demo.services ClassicalML "hello there"
              (Analyzer.analyze "hello there") (Demo.fresh 0))
    as [[e|out] env'] eqn:E; [vm_compute in E; discriminate|].
  cbn [fst snd].
  exact (@strategy_used_is_last_called Demo.services ClassicalML "hello there"
           (Analyzer.analyze "hello there") (Demo.fresh 0) env' out E).
Defined.

Lemma unmatched_rule_based_falls_back_witness :
  let run :=
    @execute_strategy Demo.services RuleBased "hack the planet"
      (Analyzer.analyze "hack the planet") (Demo.fresh 0) in
  match fst run with
  | inr out =>
      (get_or (f_intent (Analyzer.analyze "hack the planet")) "general"
       = "factual"
       /\ out = Executed safe_refusal 0.0
                  "Safe Failure: Confidence below threshold" RuleBased
       /\ predict_calls (trace (snd run))
          = (predict_calls (trace (Demo.fresh 0))
             ++ [RuleBased; RuleBased])%list)
      \/ (get_or (f_intent (Analyzer.analyze "hack the planet")) "general"
          <> "factual"
          /\ out_strategy out = Transformer
          /\ predict_calls (trace (snd run))
             = (predict_calls (trace (Demo.fresh 0))
                ++ [RuleBased; RuleBased; Transformer])%list)
  | inl _ => False
  end.
Proof.
  cbv zeta.
  destruct (@execute_strategy Demo.services RuleBased "hack the planet"
              (Analyzer.analyze "hack the planet") (Demo.fresh 0))
    as [[e|out] env'] eqn:E; [vm_compute in E; discriminate|].
  cbn [fst snd].
  apply (@unmatched_rule_based_falls_back Demo.services "hack the planet"
           (Analyzer.analyze "hack the planet") (Demo.fresh 0) env' out).
  - reflexivity.
  - exact E.
Defined.

Lemma governance_query_never_generated_witness :
  match fst (@execute_strategy Demo.loaded Transformer
               "who is the current leader of the council"
               Demo.explanation_features (Demo.fresh_loaded 0)) with
  | inr out => out_answer out = safe_refusal /\ out_confidence out = 0.0%Q
  | inl _ => False
  end.
Proof.
  destruct (@execute_strategy Demo.loaded Transformer
              "who is the current leader of the council"
              Demo.explanation_features (Demo.fresh_loaded 0))
    as [[e|out] env'] eqn:E; [vm_compute in E; discriminate|].
  cbn [fst].
  apply (@governance_query_never_generated Demo.loaded Transformer
           "who is the current leader of the council"
           Demo.explanation_features (Demo.fresh_loaded 0) env' out).
  - reflexivity.
  - reflexivity.
  - exact E.
  - vm_compute in E. inversion E. reflexivity.
Defined.

Lemma simulation_mode_never_refuses_witness :
  match fst (@execute_strategy Demo.services ClassicalML "hello there"
               (Analyzer.analyze "hello there") (Demo.fresh 0)) with
  | inr out => (0.35 <= out_confidence out)%Q
  | inl _ => False
  end.
Proof.
  destruct (@execute_strategy Demo.services ClassicalML "hello there"
              (Analyzer.analyze "hello there") (Demo.fresh 0))
    as [[e|out] env'] eqn:E; [vm_compute in E; discriminate|].
  cbn [fst].
  apply (@simulation_mode_never_refuses Demo.services ClassicalML
           "hello there" (Analyzer.analyze "hello there") (Demo.fresh 0)
           env' out).
  - reflexivity.
  - vm_compute. discriminate.
  - exact E.
Defined.

Lemma web_tier_results_witness :
  let run := @_fetch_from_web_apis Demo.services "what is python?"
               (Demo.fresh 2) in
  exists result later,
    fst run = inr result
    /\ web_result result
    /\ trace (snd run)
       = (trace (Demo.fresh 2) ++ Request DuckDuckGo :: later)%list
    /\ (confidence result = 0.85%Q -> later = [])
    /\ cache (snd run) = cache (Demo.fresh 2).
Proof.
  cbv zeta.
  apply (@web_tier_results Demo.services "what is python?" (Demo.fresh 2)
           (snd (@_fetch_from_web_apis Demo.services "what is python?"
                   (Demo.fresh 2)))
           (fst (@_fetch_from_web_apis Demo.services "what is python?"
                   (Demo.fresh 2)))).
  apply surjective_pairing.
Defined.

Lemma execution_only_adds_to_cache_witness :
  let run := @execute_strategy Demo.services Retrieval "What is Python?"
               Demo.plain_factual (Demo.fresh 2) in
  (forall key entry,
     cache (Demo.fresh 2) !! key = Some entry ->
     cache (snd run) !! key = Some entry)
  /\ (forall key entry,
        cache (snd run) !! key = Some entry ->
        cache (Demo.fresh 2) !! key = Some entry
        \/ (key = Text.normalize "What is Python?"
            /\ (0.1 < confidence entry)%Q)).
Proof.
  cbv zeta.
  apply (@execution_only_adds_to_cache Demo.services Retrieval
           "What is Python?" Demo.plain_factual (Demo.fresh 2)
           (snd (@execute_strategy Demo.services Retrieval "What is Python?"
                   Demo.plain_factual (Demo.fresh 2)))
           (fst (@execute_strategy Demo.services Retrieval "What is Python?"
                   Demo.plain_factual (Demo.fresh 2)))).
  apply surjective_pairing.
Defined.

Lemma local_hit_asks_no_provider_witness :
  @retrieval_predict Demo.loaded "What is Python?" Demo.plain_factual
    (Demo.fresh_loaded 0)
  = (inr (Triple "Python is a programming language." 0.9
            "Local KB (Similarity: 0.90)"),
     @Build_Env Demo.loaded 0%nat
       (<[Text.normalize "What is Python?" :=
            Triple "Python is a programming language." 0.9
              "Local KB (Similarity: 0.90)"]> ∅)
       [SimilaritySearch]).
Proof.
  apply (@local_hit_asks_no_provider Demo.loaded "What is Python?"
           Demo.plain_factual (Demo.fresh_loaded 0) 0%nat 0.9%Q
           "Python is a programming language.").
  - reflexivity.
  - discriminate.
  - reflexivity.
  - reflexivity.
  - reflexivity.
  - reflexivity.
Defined.
